(** * Account storage utilities ([go/internal/accountutils/utils.go])

    A shallow embedding of the package's functions.  Every call that leaves
    the package (file system, random source, keystore, SQL driver, clock,
    logger) is an event of [osE]; a function of the package is a tree of
    such calls ([prog]), and [run] plays a tree against any environment,
    recording the calls made and the answers received. *)

From Stdlib Require Import ZArith NArith String Ascii List Lia.
From Stdlib.Strings Require Import Byte.
From Stdlib Require Import DecimalString DecimalZ.
From stdpp Require Import base decidable list strings gmap.

Open Scope string_scope.
Open Scope list_scope.

(** ** Constants of the package *)

Definition InMemoryDir : string := ":memory:".
Definition DefaultPushKeyFilename : string := "push.key".
Definition AccountMetafileName : string := "account_meta".
Definition AccountNetConfFileName : string := "account_net_conf".
Definition MessengerDatabaseFilename : string := "messenger.sqlite".
Definition ReplicationDatabaseFilename : string := "replication.sqlite".
Definition StorageKeyName : string := "storage".

(** [cryptoutil.KeySize].  The file assigns the result of [box.GenerateKey],
    a pair of [*[32]byte], to variables of type [*[cryptoutil.KeySize]byte],
    so the constant is 32. *)
Definition KeySize : nat := 32.

(** File modes: [0o700], [0o600] and [os.ModePerm] ([0o777]). *)
Definition mode_0700 : N := 448.
Definition mode_0600 : N := 384.
Definition ModePerm : N := 511.

#[global] Instance byte_eq_dec : EqDecision byte := Byte.byte_eq_dec.

(** ** Errors *)

(** The codes of package [errcode] that the file uses. *)
Inductive ErrCode : Set :=
| TODO
| ErrInternal
| ErrInvalidInput
| ErrDeserialization
| ErrDBWrite
| ErrDBOpen
| ErrCryptoKeyGeneration
| ErrKeystoreGet
| ErrKeystorePut
| ErrPushUnableToDecrypt
| ErrBertyAccountFSError
| ErrBertyAccountDataNotFound.

#[global] Instance ErrCode_eq_dec : EqDecision ErrCode.
Proof. solve_decision. Defined.

(** Go [error] values, by the way they are built. *)
Inductive error : Set :=
| External (text : string) (notExist : bool)
    (* an error made outside the package; [notExist] is what
       [os.IsNotExist] answers on it *)
| New (text : string)                       (* errors.New, fmt.Errorf without %w *)
| Errorf_w (prefix : string) (err : error)  (* fmt.Errorf("prefix: %w", err) *)
| Code (c : ErrCode)                        (* a bare errcode value *)
| Wrap (c : ErrCode) (inner : error)        (* errcode.X.Wrap(inner) *)
| Append (left right : error).              (* multierr.Append of two non-nil errors *)

#[global] Instance error_eq_dec : EqDecision error.
Proof. solve_decision. Defined.

(** [os.IsNotExist(err)]; [None] is the nil error. *)
Definition IsNotExist (err : option error) : bool :=
  match err with
  | Some (External _ b) => b
  | _ => false
  end.

(** The outermost code of an error, when it has one. *)
Definition code_of (e : error) : option ErrCode :=
  match e with
  | Code c | Wrap c _ => Some c
  | _ => None
  end.

(** A Go result [(T, error)] with the usual discipline: the value is
    meaningful only when the error is nil. *)
Inductive result (T : Type) : Type :=
| Ok (v : T)
| Err (e : error).
Arguments Ok {T} v.
Arguments Err {T} e.

(** ** Data *)

(** A [[KeySize]byte] array. *)
Record KeyArr : Set := mkKeyArr {
  key_bytes : list byte;
  key_len : length key_bytes = KeySize
}.

(** [*zap.Logger] values that are not nil. *)
Inductive Logger : Set :=
| NopLogger                          (* zap.NewNop() *)
| LoggerRef (id : nat)
| Named (l : Logger) (name : string). (* l.Named(name) *)

Inductive Field : Set :=
| zap_Error (e : error)
| zap_String (key val : string).

Inductive Keystore : Set := KeystoreRef (id : nat).
Inductive DB : Set := DBRef (id : nat).          (* *sql.DB *)
Inductive GormDB : Set := GormDBRef (id : nat).  (* *gorm.DB *)

(** [os.FileInfo], as far as the file looks at it. *)
Record FileInfo : Set := mkFileInfo {
  fi_Name : string;
  fi_IsDir : bool
}.

Record GormConfig : Set := mkGormConfig {
  cfg_Logger : Logger;     (* zapgorm2.New(...) of this logger *)
  cfg_DisableForeignKeyConstraintWhenMigrating : bool
}.

(** ** Calls that leave the package *)

Inductive osE : Type -> Type :=
| ReadFile (filename : string) : osE (list byte * option error)
| WriteFile (filename : string) (data : list byte) (perm : N) : osE (option error)
| MkdirAll (path : string) (perm : N) : osE (option error)
| Create (name : string) : osE (option error)
| Stat (name : string) : osE (option error)
| ReadDir (dirname : string) : osE (list FileInfo * option error)
| GenerateKey : osE ((KeyArr * KeyArr) + error)      (* box.GenerateKey(crand.Reader) *)
| CrandRead (n : nat) : osE (list byte * option error) (* crand.Read on a buffer of n bytes *)
| KsGet (ks : Keystore) (key : string) : osE (list byte * option error)
| KsPut (ks : Keystore) (key : string) (data : list byte) : osE (option error)
| Warn (l : Logger) (msg : string) (fields : list Field) : osE unit
| IsEncrypted (filename : string) : osE (bool * option error)
| SqlOpen (driver url : string) : osE (DB * option error)
| DbExec (db : DB) (query : string) : osE (option error)
| DbClose (db : DB) : osE (option error)
| UnixNano : osE Z                                   (* time.Now().UnixNano() *)
| GormOpen (conn : string) (cfg : GormConfig) : osE (GormDB * option error)
| GormDB_DB (g : GormDB) : osE (option DB * option error).

(** Run-time panics of the Go runtime. *)
Inductive panic : Set :=
| IndexOutOfRange (index len : nat).

(** A computation: it returns, panics, or makes a call and goes on with
    the answer. *)
Inductive prog (A : Type) : Type :=
| Ret (a : A)
| Panic (p : panic)
| Vis {X : Type} (e : osE X) (k : X -> prog A).
Arguments Ret {A} a.
Arguments Panic {A} p.
Arguments Vis {A X} e k.

Fixpoint bind {A B : Type} (m : prog A) (f : A -> prog B) : prog B :=
  match m with
  | Ret a => f a
  | Panic p => Panic p
  | Vis e k => Vis e (fun x => bind (k x) f)
  end.

Definition call {X : Type} (e : osE X) : prog X := Vis e Ret.

#[global] Instance prog_ret : MRet prog := @Ret.
#[global] Instance prog_bind : MBind prog := fun A B f m => bind m f.

(** One call together with the answer it got. *)
Inductive event : Type :=
| Ev {X : Type} (e : osE X) (x : X).

Inductive outcome (A : Type) : Type :=
| Returned (a : A)
| Panicked (p : panic).
Arguments Returned {A} a.
Arguments Panicked {A} p.

Section Run.
(** An environment: a state and the answer it gives to each call. *)
Context {W : Type} (h : forall X : Type, osE X -> W -> X * W).

Fixpoint run {A : Type} (p : prog A) (w : W) : outcome A * W * list event :=
  match p with
  | Ret a => (Returned a, w, [])
  | Panic q => (Panicked q, w, [])
  | Vis e k =>
      let '(x, w1) := h _ e w in
      let '(o, w2, tr) := run (k x) w1 in
      (o, w2, Ev e x :: tr)
  end.
End Run.

(** ** Slices *)

(** [l[i]] *)
Definition index {A : Type} (l : list A) (i : nat) : prog A :=
  match l !! i with
  | Some x => Ret x
  | None => Panic (IndexOutOfRange i (length l))
  end.

(** [l[i] = x] *)
Definition store {A : Type} (l : list A) (i : nat) (x : A) : prog (list A) :=
  if decide (i < length l) then Ret (<[i := x]> l)
  else Panic (IndexOutOfRange i (length l)).

(** [for i := from; i < from + n; i++ { s = body i s }] *)
Fixpoint for_range {S : Type} (from n : nat) (body : nat -> S -> prog S) (s : S)
  : prog S :=
  match n with
  | O => Ret s
  | Datatypes.S n' => s' ← body from s; for_range (Datatypes.S from) n' body s'
  end.

(** [for _, x := range l { s = body x s }] *)
Fixpoint for_each {A S : Type} (l : list A) (body : A -> S -> prog S) (s : S)
  : prog S :=
  match l with
  | [] => Ret s
  | x :: l' => s' ← body x s; for_each l' body s'
  end.

(** ** Formatting *)

Definition hex_digit (n : N) : ascii :=
  match n with
  | 0 => "0" | 1 => "1" | 2 => "2" | 3 => "3" | 4 => "4" | 5 => "5"
  | 6 => "6" | 7 => "7" | 8 => "8" | 9 => "9" | 10 => "a" | 11 => "b"
  | 12 => "c" | 13 => "d" | 14 => "e" | _ => "f"
  end%N%char.

(** [hex.EncodeToString]: two lower-case digits per byte. *)
Fixpoint EncodeToString (src : list byte) : string :=
  match src with
  | [] => ""
  | b :: src' =>
      String (hex_digit (Byte.to_N b / 16))
        (String (hex_digit (Byte.to_N b mod 16)) (EncodeToString src'))
  end.

(** The verb [%d] of [fmt.Sprintf] on an integer. *)
Definition fmt_d (z : Z) : string := NilZero.string_of_int (Z.to_int z).

(** [fmt.Sprintf("%s?_pragma_key=x'%s'&_pragma_cipher_page_size=4096", path, hexKey)] *)
Definition encrypted_url (path hexKey : string) : string :=
  path +:+ "?_pragma_key=x'" +:+ hexKey +:+ "'&_pragma_cipher_page_size=4096".

(** [fmt.Sprintf("file:memdb%d?mode=memory&cache=shared", nanos)] *)
Definition memdb_url (nanos : Z) : string :=
  "file:memdb" +:+ fmt_d nanos +:+ "?mode=memory&cache=shared".

Definition nl : string := String "010" "".
Definition tab : string := String "009" "".

(** The statement sent by [GetRootDatastoreForPath], with the table name
    filled in. *)
Definition create_table_stmt (tableName : string) : string :=
  "CREATE TABLE IF NOT EXISTS " +:+ tableName +:+ " (" +:+ nl +:+
  tab +:+ tab +:+ tab +:+ "key TEXT PRIMARY KEY," +:+ nl +:+
  tab +:+ tab +:+ tab +:+ "data BLOB" +:+ nl +:+
  tab +:+ tab +:+ ") WITHOUT ROWID;".

(** ** Records of other packages *)

(** Modelled from the spec: the declaration of [accounttypes.AccountMetadata]
    is not among the sources.  The record has the two fields this file
    reads and writes, [AccountID] and [Error]; its other serialized fields
    are kept as one opaque component. *)
Record AccountMetadata (Rest : Type) : Type := mkAccountMetadata {
  AccountID : string;
  Error : string;
  am_rest : Rest
}.
Arguments mkAccountMetadata {Rest} _ _ _.
Arguments AccountID {Rest} _.
Arguments Error {Rest} _.
Arguments am_rest {Rest} _.

(** [datastore.Batching] values, by the way they are built. *)
Inductive Datastore : Set :=
| NewMapDatastore                            (* datastore.NewMapDatastore() *)
| NewDatastore (db : DB) (tableName : string) (* sqlds.NewDatastore(db, pgqueries.NewQueries(tableName)) *)
| MutexWrap (ds : Datastore).                (* sync_ds.MutexWrap(ds) *)

(** ** Library functions the package calls as pure functions *)

Class GoLib : Type := {
  path_Dir : string -> string;
  path_Join : string -> string -> string;
  filepath_Join : list string -> string;
  Rest : Type;
  rest_zero : Rest;   (* the zero value of the other fields *)
  (* proto.Unmarshal into a fresh &AccountMetadata{} *)
  proto_Unmarshal : list byte -> result (AccountMetadata Rest);
  (* err.Error() *)
  error_Error : error -> string
}.

Section Package.
Context `{GoLib}.

(** *** GetDevicePushKeyForPath *)

(** Lines 56-60: a buffer of [2*KeySize] zero bytes, filled with the two
    keys, index by index. *)
Definition join_keys (pk sk : KeyArr) : prog (list byte) :=
  for_range 0 KeySize (fun i contents =>
      a ← index (key_bytes pk) i ;
      contents ← store contents i a ;
      b ← index (key_bytes sk) i ;
      store contents (i + KeySize) b)
    (replicate (KeySize * 2) x00).

(** Lines 75-81: two zero arrays, filled from the file's contents, index
    by index. *)
Definition split_keys (contents : list byte) : prog (list byte * list byte) :=
  for_range 0 KeySize (fun i '(pkVal, skVal) =>
      a ← index contents i ;
      pkVal ← store pkVal i a ;
      b ← index contents (i + KeySize) ;
      skVal ← store skVal i b ;
      Ret (pkVal, skVal))
    (replicate KeySize x00, replicate KeySize x00).

(** The keys are returned as the contents of the two arrays. *)
Definition GetDevicePushKeyForPath (filePath : string) (createIfMissing : bool)
  : prog (result (list byte * list byte)) :=
  '(contents, err) ← call (ReadFile filePath) ;
  if IsNotExist err && createIfMissing then
    e ← call (MkdirAll (path_Dir filePath) mode_0700) ;
    match e with
    | Some err => Ret (Err (Wrap ErrInternal err))
    | None =>
    r ← call GenerateKey ;
    match r with
    | inr err => Ret (Err (Wrap ErrCryptoKeyGeneration err))
    | inl (pk, sk) =>
    contents ← join_keys pk sk ;
    e ← call (Create filePath) ;
    match e with
    | Some err => Ret (Err (Wrap ErrInternal err))
    | None =>
    e ← call (WriteFile filePath contents mode_0600) ;
    match e with
    | Some err => Ret (Err (Wrap ErrInternal err))
    | None => Ret (Ok (key_bytes pk, key_bytes sk))
    end end end end
  else if bool_decide (err <> None) then
    Ret (Err (Wrap ErrPushUnableToDecrypt (New "unable to get device push key")))
  else
    '(pkVal, skVal) ← split_keys contents ;
    Ret (Ok (pkVal, skVal)).

(** *** GetAccountMetaForName *)

Definition GetAccountMetaForName (rootDir accountID : string) (logger : option Logger)
  : prog (result (AccountMetadata Rest)) :=
  let logger := default NopLogger logger in
  let metafileName := filepath_Join [rootDir; accountID; AccountMetafileName] in
  '(metaBytes, err) ← call (ReadFile metafileName) ;
  if IsNotExist err then
    Ret (Err (Code ErrBertyAccountDataNotFound))
  else match err with
  | Some err =>
      _ ← call (Warn logger "unable to read account metadata"
                  [zap_Error err; zap_String "account-id" accountID]) ;
      Ret (Err (Wrap ErrBertyAccountFSError
                  (Errorf_w "unable to read account metadata" err)))
  | None =>
      match proto_Unmarshal metaBytes with
      | Err err =>
          Ret (Err (Wrap ErrDeserialization
                      (Errorf_w "unable to unmarshall account metadata" err)))
      | Ok meta =>
          let meta := mkAccountMetadata accountID (Error meta) (am_rest meta) in
          Ret (Ok meta)
      end
  end.

(** *** ListAccounts *)

Definition ListAccounts (rootDir : string) (logger : option Logger)
  : prog (result (list (AccountMetadata Rest))) :=
  let logger := default NopLogger logger in
  err ← call (Stat rootDir) ;
  if IsNotExist err then Ret (Ok [])
  else match err with
  | Some err => Ret (Err (Wrap ErrBertyAccountFSError err))
  | None =>
  '(subitems, err) ← call (ReadDir rootDir) ;
  match err with
  | Some err => Ret (Err (Wrap ErrBertyAccountFSError err))
  | None =>
  accounts ← for_each subitems (fun subitem accounts =>
      if negb (fi_IsDir subitem) then Ret accounts
      else
        r ← GetAccountMetaForName rootDir (fi_Name subitem) (Some logger) ;
        match r with
        | Err err =>
            Ret (accounts ++
                 [mkAccountMetadata (fi_Name subitem) (error_Error err) rest_zero])%list
        | Ok account => Ret (accounts ++ [account])%list
        end) [] ;
  Ret (Ok accounts)
  end end.

(** *** GetOrCreateStorageKey *)

Definition GetOrCreateStorageKey (ks : Keystore) : prog (result (list byte)) :=
  '(key, getErr) ← call (KsGet ks StorageKeyName) ;
  match getErr with
  | Some getErr =>
      '(keyData, err) ← call (CrandRead KeySize) ;
      match err with
      | Some err => Ret (Err (Wrap ErrCryptoKeyGeneration err))
      | None =>
      err ← call (KsPut ks StorageKeyName keyData) ;
      match err with
      | Some err => Ret (Err (Wrap ErrKeystoreGet (Append getErr err)))
      | None =>
      '(key, err) ← call (KsGet ks StorageKeyName) ;
      match err with
      | Some err => Ret (Err (Wrap ErrKeystorePut (Append getErr err)))
      | None => Ret (Ok key)
      end end end
  | None => Ret (Ok key)
  end.

(** *** GetDatastoreDir *)

Definition GetDatastoreDir (dir : string) : prog (result string) :=
  if decide (dir = "") then Ret (Err (Wrap TODO (New "--store.dir is empty")))
  else if decide (dir = InMemoryDir) then Ret (Ok InMemoryDir)
  else
    err ← call (Stat dir) ;
    if IsNotExist err then
      e ← call (MkdirAll dir mode_0700) ;
      match e with
      | Some err => Ret (Err (Wrap TODO err))
      | None => Ret (Ok dir)
      end
    else match err with
    | Some err => Ret (Err (Wrap TODO err))
    | None => Ret (Ok dir)
    end.

(** *** GetRootDatastoreForPath

    [logger] is used without a nil check, so it is a [Logger]. *)

(** Lines 211-224: the check of the key against the file, and the URL. *)
Definition db_url (dbPath : string) (key : list byte) (logger : Logger)
    (hasDB hasEncryptedDB : bool) : prog (result string) :=
  if bool_decide (length key <> 0) then
    if hasDB && negb hasEncryptedDB then
      Ret (Err (Wrap ErrInvalidInput
        (New "storage key provided while datastore db is NOT encrypted")))
    else
      let hexKey := EncodeToString key in
      Ret (Ok (encrypted_url dbPath hexKey))
  else
    if hasDB && hasEncryptedDB then
      Ret (Err (Wrap ErrInvalidInput
        (New "missing storage key, db is encrypted")))
    else
      _ ← call (Warn logger "root datastore encryption disabled: no key provided" []) ;
      Ret (Ok dbPath).

(** Lines 226-244: the database is opened, the table created, the
    datastore made. *)
Definition open_datastore (dbURL tableName : string) : prog (result Datastore) :=
  '(db, err) ← call (SqlOpen "sqlite3" dbURL) ;
  match err with
  | Some err => Ret (Err (Wrap ErrDBOpen err))
  | None =>
  err ← call (DbExec db (create_table_stmt tableName)) ;
  match err with
  | Some err => Ret (Err (Wrap ErrDBWrite err))
  | None => Ret (Ok (NewDatastore db tableName))
  end end.

Definition GetRootDatastoreForPath (dir : string) (key : list byte) (logger : Logger)
  : prog (result Datastore) :=
  let inMemory := bool_decide (dir = InMemoryDir) in
  ds ← (if inMemory then Ret (Ok NewMapDatastore)
        else
          let tableName := "blocks" in
          e ← call (MkdirAll dir ModePerm) ;
          match e with
          | Some err => Ret (Err (Wrap TODO err))
          | None =>
          let dbPath := filepath_Join [dir; "datastore.sqlite"] in
          st ← call (Stat dbPath) ;
          let hasDB := bool_decide (st = None) in
          '(hasEncryptedDB, err) ← call (IsEncrypted dbPath) ;
          let hasEncryptedDB :=
            if bool_decide (err <> None) then false else hasEncryptedDB in
          r ← db_url dbPath key logger hasDB hasEncryptedDB ;
          match r with
          | Err err => Ret (Err err)
          | Ok dbURL => open_datastore dbURL tableName
          end end) ;
  match ds with
  | Err err => Ret (Err err)
  | Ok ds => Ret (Ok (MutexWrap ds))
  end.

(** *** GetGormDBForPath and its wrappers

    The second component of the result is the returned closing function. *)

Definition GetGormDBForPath (dbPath : string) (key : list byte) (logger : Logger)
  : prog (result (GormDB * prog unit)) :=
  sqliteConn ← (if bool_decide (dbPath = InMemoryDir) then
                  nanos ← call UnixNano ;
                  Ret (memdb_url nanos)
                else
                  let sqliteConn := dbPath in
                  if bool_decide (length key <> 0) then
                    let hexKey := EncodeToString key in
                    Ret (encrypted_url sqliteConn hexKey)
                  else Ret sqliteConn) ;
  let cfg := mkGormConfig (Named logger "gorm") true in
  '(db, err) ← call (GormOpen sqliteConn cfg) ;
  match err with
  | Some err => Ret (Err (Wrap TODO err))
  | None =>
      Ret (Ok (db,
               '(sqlDB, _) ← call (GormDB_DB db) ;
               match sqlDB with
               | Some sqlDB => _ ← call (DbClose sqlDB) ; Ret tt
               | None => Ret tt
               end))
  end.

Definition GetMessengerDBForPath (dir : string) (key : list byte) (logger : Logger)
  : prog (result (GormDB * prog unit)) :=
  let dir := if bool_decide (dir <> InMemoryDir)
             then path_Join dir MessengerDatabaseFilename else dir in
  GetGormDBForPath dir key logger.

Definition GetReplicationDBForPath (dir : string) (logger : Logger)
  : prog (result (GormDB * prog unit)) :=
  let dir := if bool_decide (dir <> InMemoryDir)
             then path_Join dir ReplicationDatabaseFilename else dir in
  GetGormDBForPath dir [] logger.

End Package.

(** ** A reference environment

    An in-memory file system, a keystore, a queue of random draws and a
    clock.  The theorems below hold for every environment; this one is
    used to run the package on concrete inputs. *)

Module Sim.

Inductive node : Set :=
| File (contents : list byte)
| Dir.

#[export] Instance node_eq_dec : EqDecision node.
Proof. solve_decision. Defined.

Definition is_file (n : option node) : bool :=
  match n with
  | Some (File _) => true
  | _ => false
  end.

(** What [Put] of the keystore does with a value. *)
Inductive put_mode : Set :=
| PutStores                      (* keeps the value as given *)
| PutWraps (header : list byte)  (* keeps the value behind a header *)
| PutDrops                       (* reports success, keeps nothing *)
| PutRejects.                    (* reports an error *)

Record World : Type := mkWorld {
  fs : gmap string node;
  keystore : gmap string (list byte);
  ks_mode : put_mode;
  key_draws : list (KeyArr * KeyArr);   (* what box.GenerateKey draws next *)
  byte_draws : list (list byte);        (* what crand.Read draws next *)
  clock : list Z;                       (* the next readings of the clock *)
  handles : nat                         (* database handles given out *)
}.

Definition set_fs (f : gmap string node -> gmap string node) (w : World) : World :=
  mkWorld (f (fs w)) (keystore w) (ks_mode w) (key_draws w) (byte_draws w)
          (clock w) (handles w).

Definition ENOENT : error := External "no such file or directory" true.
Definition EISDIR : error := External "is a directory" false.
Definition ENOTDIR : error := External "not a directory" false.
Definition EIO : error := External "unexpected EOF" false.

(** Paths are slash-separated and already clean. *)
Fixpoint last_slash (s : string) : option nat :=
  match s with
  | "" => None
  | String c s' =>
      match last_slash s' with
      | Some n => Some (S n)
      | None => if Ascii.eqb c "/" then Some 0 else None
      end
  end.

Definition dir_of (p : string) : string :=
  match last_slash p with
  | Some 0 => "/"
  | Some n => String.substring 0 n p
  | None => "."
  end.

Definition base_of (p : string) : string :=
  match last_slash p with
  | Some n => String.substring (S n) (String.length p - S n) p
  | None => p
  end.

Definition join2 (a b : string) : string := a +:+ "/" +:+ b.

Fixpoint join (l : list string) : string :=
  match l with
  | [] => ""
  | [a] => a
  | a :: l' => a +:+ "/" +:+ join l'
  end.

Definition is_dir (m : gmap string node) (p : string) : bool :=
  bool_decide (p = "." \/ p = "/" \/ m !! p = Some Dir).

(** [p] and the directories above it, the outermost first. *)
Fixpoint chain (fuel : nat) (p : string) : list string :=
  match fuel with
  | O => []
  | S fuel' =>
      if bool_decide (p = "." \/ p = "/") then []
      else chain fuel' (dir_of p) ++ [p]
  end.

Definition mkdir_all (m : gmap string node) (p : string)
  : option error * gmap string node :=
  let ps := chain (String.length p) p in
  if forallb (fun q => negb (is_file (m !! q))) ps
  then (None, foldr (fun q m' => <[q := Dir]> m') m ps)
  else (Some ENOTDIR, m).

Definition write (m : gmap string node) (p : string) (data : list byte)
  : option error * gmap string node :=
  if negb (is_dir m (dir_of p)) then (Some ENOENT, m)
  else if bool_decide (m !! p = Some Dir) then (Some EISDIR, m)
  else (None, <[p := File data]> m).

Definition read_dir (m : gmap string node) (p : string) : list FileInfo :=
  omap (fun '(q, n) =>
          if bool_decide (dir_of q = p)
          then Some (mkFileInfo (base_of q) (bool_decide (n = Dir)))
          else None)
       (map_to_list m).

(** The first 16 bytes of a plain SQLite 3 file. *)
Definition sqlite_header : list byte :=
  [x53; x51; x4c; x69; x74; x65; x20; x66;
   x6f; x72; x6d; x61; x74; x20; x33; x00].

(** The probe of the SQL driver: the header must be readable, and the
    file counts as encrypted when the header is not the plain one. *)
Definition is_encrypted (m : gmap string node) (p : string) : bool * option error :=
  match m !! p with
  | None => (false, Some ENOENT)
  | Some Dir => (false, Some EISDIR)
  | Some (File c) =>
      if decide (length c < 16) then (false, Some EIO)
      else (bool_decide (take 16 c <> sqlite_header), None)
  end.

Definition zero_key : KeyArr := mkKeyArr (replicate KeySize x00) eq_refl.

Definition handler (X : Type) (e : osE X) : World -> X * World :=
  match e in osE X return World -> X * World with
  | ReadFile p => fun w =>
      match fs w !! p with
      | Some (File c) => ((c, None), w)
      | Some Dir => (([], Some EISDIR), w)
      | None => (([], Some ENOENT), w)
      end
  | WriteFile p data _ => fun w =>
      let '(r, m) := write (fs w) p data in (r, set_fs (fun _ => m) w)
  | MkdirAll p _ => fun w =>
      let '(r, m) := mkdir_all (fs w) p in (r, set_fs (fun _ => m) w)
  | Create p => fun w =>
      let '(r, m) := write (fs w) p [] in (r, set_fs (fun _ => m) w)
  | Stat p => fun w =>
      (if bool_decide (is_Some (fs w !! p)) then None else Some ENOENT, w)
  | ReadDir p => fun w =>
      match fs w !! p with
      | Some Dir => ((read_dir (fs w) p, None), w)
      | Some (File _) => (([], Some ENOTDIR), w)
      | None => (([], Some ENOENT), w)
      end
  | GenerateKey => fun w =>
      match key_draws w with
      | k :: ks =>
          (inl k, mkWorld (fs w) (keystore w) (ks_mode w) ks (byte_draws w)
                          (clock w) (handles w))
      | [] => (inr EIO, w)
      end
  | CrandRead n => fun w =>
      match byte_draws w with
      | d :: ds =>
          ((take n d ++ replicate (n - length d) x00, None)%list,
           mkWorld (fs w) (keystore w) (ks_mode w) (key_draws w) ds
                   (clock w) (handles w))
      | [] => ((replicate n x00, Some EIO), w)
      end
  | KsGet _ name => fun w =>
      match keystore w !! name with
      | Some v => ((v, None), w)
      | None => (([], Some (External "keystore: no such entry" false)), w)
      end
  | KsPut _ name data => fun w =>
      let put v := mkWorld (fs w) (<[name := v]> (keystore w)) (ks_mode w)
                           (key_draws w) (byte_draws w) (clock w) (handles w) in
      match ks_mode w with
      | PutStores => (None, put data)
      | PutWraps hd => (None, put (hd ++ data)%list)
      | PutDrops => (None, w)
      | PutRejects => (Some (External "keystore: read only" false), w)
      end
  | Warn _ _ _ => fun w => (tt, w)
  | IsEncrypted p => fun w => (is_encrypted (fs w) p, w)
  | SqlOpen _ _ => fun w =>
      ((DBRef (handles w), None),
       mkWorld (fs w) (keystore w) (ks_mode w) (key_draws w) (byte_draws w)
               (clock w) (S (handles w)))
  | DbExec _ _ => fun w => (None, w)
  | DbClose _ => fun w => (None, w)
  | UnixNano => fun w =>
      match clock w with
      | t :: ts =>
          (t, mkWorld (fs w) (keystore w) (ks_mode w) (key_draws w) (byte_draws w)
                      ts (handles w))
      | [] => (0%Z, w)
      end
  | GormOpen _ _ => fun w =>
      ((GormDBRef (handles w), None),
       mkWorld (fs w) (keystore w) (ks_mode w) (key_draws w) (byte_draws w)
               (clock w) (S (handles w)))
  | GormDB_DB (GormDBRef n) => fun w => ((Some (DBRef n), None), w)
  end.

(** Account metadata files of the reference environment hold the account
    id, a newline and the rest; anything without a newline is malformed. *)
Fixpoint split_line (acc : string) (l : list byte) : option (string * list byte) :=
  match l with
  | [] => None
  | b :: l' =>
      if bool_decide (b = x0a) then Some (acc, l')
      else split_line (acc +:+ String (ascii_of_byte b) "") l'
  end.

#[global] Instance lib : GoLib := {|
  path_Dir := dir_of;
  path_Join := join2;
  filepath_Join := join;
  Rest := list byte;
  rest_zero := [];
  proto_Unmarshal := fun bs =>
    match split_line "" bs with
    | Some (id, r) => Ok (mkAccountMetadata id "" r)
    | None => Err (External "proto: cannot parse" false)
    end;
  error_Error := fun e =>
    match e with
    | Code ErrBertyAccountDataNotFound => "ErrBertyAccountDataNotFound(#1001)"
    | Wrap ErrDeserialization _ => "ErrDeserialization(#104)"
    | _ => "error"
    end
|}.

Definition empty : World := mkWorld ∅ ∅ PutStores [] [] [] 0.

End Sim.

(** ** States of the reference environment used below *)

Module Examples.
Definition pk1 : KeyArr := mkKeyArr (replicate KeySize x01) eq_refl.
Definition sk1 : KeyArr := mkKeyArr (replicate KeySize x02) eq_refl.

(** No file at all; one key pair can be drawn. *)
Definition fresh : Sim.World :=
  Sim.mkWorld ∅ ∅ Sim.PutStores [(pk1, sk1)] [] [] 0.

(** A key file of ten bytes. *)
Definition truncated : Sim.World :=
  Sim.mkWorld (<["acc/push.key" := Sim.File (replicate 10 x07)]> (<["acc" := Sim.Dir]> ∅))
              ∅ Sim.PutStores [(pk1, sk1)] [] [] 0.

(** The first call on [fresh], which creates the key file. *)
Definition first_call
  : outcome (result (list byte * list byte)) * Sim.World * list event :=
  run Sim.handler (GetDevicePushKeyForPath "acc/push.key" true) fresh.
End Examples.

Module KeystoreExamples.
Definition ks : Keystore := KeystoreRef 0.
Definition drawn : list byte := replicate KeySize x2a.
Definition held : list byte := replicate KeySize x11.

(** A keystore that holds the storage key. *)
Definition filled : Sim.World :=
  Sim.mkWorld ∅ (<[StorageKeyName := held]> ∅) Sim.PutStores [] [drawn] [] 0.

(** An empty keystore that puts a one-byte header before what it stores. *)
Definition wrapping : Sim.World :=
  Sim.mkWorld ∅ ∅ (Sim.PutWraps [x01]) [] [drawn] [] 0.

(** An empty keystore that refuses to store. *)
Definition rejecting : Sim.World :=
  Sim.mkWorld ∅ ∅ Sim.PutRejects [] [drawn] [] 0.

(** An empty keystore that loses what it stores. *)
Definition dropping : Sim.World :=
  Sim.mkWorld ∅ ∅ Sim.PutDrops [] [drawn] [] 0.

Definition missing : error := External "keystore: no such entry" false.
End KeystoreExamples.

Module AccountExamples.
Definition meta_file (id rest : string) : Sim.node :=
  Sim.File (list_byte_of_string (id +:+ nl +:+ rest)).

(** Three account directories and a plain file; the metadata of
    [accounts/b] is malformed, that of [accounts/real-id] names another
    account. *)
Definition root : Sim.World :=
  Sim.mkWorld
    (<["accounts/notes.txt" := Sim.File []]>
     (<["accounts/c/account_meta" := meta_file "c" "carol"]>
     (<["accounts/c" := Sim.Dir]>
     (<["accounts/b/account_meta" := Sim.File (list_byte_of_string "garbage")]>
     (<["accounts/b" := Sim.Dir]>
     (<["accounts/real-id/account_meta" := meta_file "stale" "alice"]>
     (<["accounts/real-id" := Sim.Dir]>
     (<["accounts" := Sim.Dir]> ∅))))))))
    ∅ Sim.PutStores [] [] [] 0.

Definition entries : list FileInfo :=
  [mkFileInfo "c" true; mkFileInfo "notes.txt" false;
   mkFileInfo "real-id" true; mkFileInfo "b" true].
End AccountExamples.

Module DatastoreExamples.
Definition plain_db : list byte := Sim.sqlite_header ++ replicate 16 x00.
Definition encrypted_db : list byte := replicate 32 xa5.
Definition key : list byte := [xde; xad].
Definition logger : Logger := LoggerRef 0.

Definition store (file : option (list byte)) : Sim.World :=
  Sim.mkWorld
    (match file with
     | Some c => <["store/datastore.sqlite" := Sim.File c]> (<["store" := Sim.Dir]> ∅)
     | None => <["store" := Sim.Dir]> ∅
     end)
    ∅ Sim.PutStores [] [] [] 0.

Definition absent : Sim.World := store None.
Definition plaintext : Sim.World := store (Some plain_db).
Definition encrypted : Sim.World := store (Some encrypted_db).
(** A database file too short to hold a header: the probe fails on it. *)
Definition stub : Sim.World := store (Some [x53; x51]).

Definition open_root (k : list byte) (w : Sim.World) : outcome (result Datastore) :=
  (run Sim.handler (GetRootDatastoreForPath "store" k logger) w).1.1.

Definition ds : outcome (result Datastore) :=
  Returned (Ok (MutexWrap (NewDatastore (DBRef 0) "blocks"))).

(** Two readings of a clock that has not advanced between the calls. *)
Definition coarse_clock : Sim.World :=
  Sim.mkWorld ∅ ∅ Sim.PutStores [] []
              [1700000000000000000%Z; 1700000000000000000%Z] 0.

(** An open without a key on the encrypted database. *)
Definition no_key_on_encrypted : outcome (result Datastore) * Sim.World * list event :=
  run Sim.handler (GetRootDatastoreForPath "store" [] logger) encrypted.

(** Two in-memory opens, one after the other. *)
Definition first_open : outcome (result (GormDB * prog unit)) * Sim.World * list event :=
  run Sim.handler (GetGormDBForPath InMemoryDir [] logger) coarse_clock.

Definition second_open : outcome (result (GormDB * prog unit)) * Sim.World * list event :=
  run Sim.handler (GetGormDBForPath InMemoryDir [] logger) first_open.1.2.
End DatastoreExamples.

Module MoreExamples.

(** A key file of seventy bytes: the two keys and six more bytes. *)
Definition long_key_file : list byte :=
  replicate 32 x01 ++ replicate 32 x02 ++ replicate 6 xff.

Definition with_long_key : Sim.World :=
  Sim.mkWorld (<["acc/push.key" := Sim.File long_key_file]> (<["acc" := Sim.Dir]> ∅))
              ∅ Sim.PutStores [] [] [] 0.

(** The first call on the keystore that wraps what it stores. *)
Definition first_key : outcome (result (list byte)) * Sim.World * list event :=
  run Sim.handler (GetOrCreateStorageKey KeystoreExamples.ks) KeystoreExamples.wrapping.

(** The messenger database of the directory [store], opened without a
    key, and the closing function returned with it. *)
Definition messenger : outcome (result (GormDB * prog unit)) * Sim.World * list event :=
  run Sim.handler (GetGormDBForPath "store/messenger.sqlite" [] DatastoreExamples.logger)
      DatastoreExamples.absent.

Definition messenger_close : prog unit :=
  match messenger.1.1 with
  | Returned (Ok (_, close)) => close
  | _ => Ret tt
  end.

(** A root that is a plain file: it can be examined but not listed. *)
Definition root_is_file : Sim.World :=
  Sim.mkWorld (<["accounts" := Sim.File []]> ∅) ∅ Sim.PutStores [] [] [] 0.

End MoreExamples.

(** * Vocabulary of the statements *)

(** The code of the list that reports an absent item. *)
Definition is_not_found (c : ErrCode) : bool :=
  match c with
  | ErrBertyAccountDataNotFound => true
  | _ => false
  end.

(** [o] is a returned error whose code is [c]. *)
Definition fails_with {T : Type} (c : ErrCode) (o : outcome (result T)) : Prop :=
  exists e, o = Returned (Err e) /\ code_of e = Some c.

(** What the package needs of the file system for a key to be read back. *)
Definition read_after_write {W : Type} (h : forall X : Type, osE X -> W -> X * W) : Prop :=
  forall p data perm w w',
    h _ (WriteFile p data perm) w = (None, w') ->
    h _ (ReadFile p) w' = ((data, None), w').

Definition read_stable {W : Type} (h : forall X : Type, osE X -> W -> X * W) : Prop :=
  forall p c w w',
    h _ (ReadFile p) w = ((c, None), w') ->
    h _ (ReadFile p) w' = ((c, None), w').

(** The state of the database file, as the two probes of
    [GetRootDatastoreForPath] report it when both give an answer: absent
    when [os.Stat] fails; otherwise what [sqlite3.IsEncrypted] says. *)
Inductive EncryptionState : Set :=
| db_absent
| db_plaintext
| db_encrypted.

Definition encryption_state (st : option error) (probe : bool * option error)
  : option EncryptionState :=
  match st, probe with
  | Some _, _ => Some db_absent
  | None, (true, None) => Some db_encrypted
  | None, (false, None) => Some db_plaintext
  | None, (_, Some _) => None
  end.

(** The driver and URL of each [sql.Open] of a trace. *)
Fixpoint opened (tr : list event) : list (string * string) :=
  match tr with
  | [] => []
  | Ev e _ :: tr' =>
      match e with
      | SqlOpen driver url => (driver, url) :: opened tr'
      | _ => opened tr'
      end
  end.

(** The connection string of each [gorm.Open] of a trace. *)
Fixpoint gorm_opened (tr : list event) : list string :=
  match tr with
  | [] => []
  | Ev e _ :: tr' =>
      match e with
      | GormOpen conn _ => conn :: gorm_opened tr'
      | _ => gorm_opened tr'
      end
  end.

(** A call without its answer. *)
Inductive acall : Type :=
| ACall {X : Type} (e : osE X).

Definition call_of (ev : event) : acall :=
  match ev with
  | Ev e _ => ACall e
  end.

(** The environment [h], except that a failing encryption probe is answered
    as "not encrypted, no error". *)
Definition probe_error_as_plain {W : Type} (h : forall X : Type, osE X -> W -> X * W)
  : forall X : Type, osE X -> W -> X * W :=
  fun X e =>
    match e in osE X return W -> X * W with
    | IsEncrypted p => fun w =>
        let '((b, err), w') := h _ (IsEncrypted p) w in
        ((match err with Some _ => false | None => b end, None), w')
    | e' => h _ e'
    end.

Section Listing.
Context `{GoLib} {W : Type} (h : forall X : Type, osE X -> W -> X * W).

(** The entry that [ListAccounts] appends for a subdirectory, from the
    result of the lookup of its metadata. *)
Definition entry_of (name : string) (r : result (AccountMetadata Rest))
  : AccountMetadata Rest :=
  match r with
  | Ok account => account
  | Err err => mkAccountMetadata name (error_Error err) rest_zero
  end.

(** [listed rootDir logger w items accounts w']: going through [items]
    from the state [w], looking up each directory in turn, gives
    [accounts] and ends in [w']. *)
Inductive listed (rootDir : string) (logger : Logger)
  : W -> list FileInfo -> list (AccountMetadata Rest) -> W -> Prop :=
| listed_nil w : listed rootDir logger w [] [] w
| listed_file w item items accounts w' :
    fi_IsDir item = false ->
    listed rootDir logger w items accounts w' ->
    listed rootDir logger w (item :: items) accounts w'
| listed_dir w item items r w1 t accounts w' :
    fi_IsDir item = true ->
    run h (GetAccountMetaForName rootDir (fi_Name item) (Some logger)) w
      = (Returned r, w1, t) ->
    listed rootDir logger w1 items accounts w' ->
    listed rootDir logger w (item :: items)
           (entry_of (fi_Name item) r :: accounts) w'.

End Listing.

(** ** The ways [GetDevicePushKeyForPath] can go

    [push_key_shape filePath create answer o tr]: the outcome [o] and the
    trace [tr] are those of one of the eight paths through the function,
    [answer] being the answer to its first call, the read of the file. *)

Section PushKeyShape.
Context `{GoLib}.

Inductive push_key_shape (filePath : string) (create : bool)
  : list byte * option error ->
    outcome (result (list byte * list byte)) -> list event -> Prop :=
| shape_read contents :
    KeySize * 2 <= length contents ->
    push_key_shape filePath create (contents, None)
      (Returned (Ok (take KeySize contents, take KeySize (drop KeySize contents))))
      [Ev (ReadFile filePath) (contents, None)]
| shape_short contents p :
    length contents < KeySize * 2 ->
    push_key_shape filePath create (contents, None) (Panicked p)
      [Ev (ReadFile filePath) (contents, None)]
| shape_unreadable contents err :
    IsNotExist (Some err) && create = false ->
    push_key_shape filePath create (contents, Some err)
      (Returned (Err (Wrap ErrPushUnableToDecrypt (New "unable to get device push key"))))
      [Ev (ReadFile filePath) (contents, Some err)]
| shape_no_directory contents err err1 :
    IsNotExist (Some err) = true -> create = true ->
    push_key_shape filePath create (contents, Some err)
      (Returned (Err (Wrap ErrInternal err1)))
      [Ev (ReadFile filePath) (contents, Some err);
       Ev (MkdirAll (path_Dir filePath) mode_0700) (Some err1)]
| shape_no_key contents err err2 :
    IsNotExist (Some err) = true -> create = true ->
    push_key_shape filePath create (contents, Some err)
      (Returned (Err (Wrap ErrCryptoKeyGeneration err2)))
      [Ev (ReadFile filePath) (contents, Some err);
       Ev (MkdirAll (path_Dir filePath) mode_0700) None;
       Ev GenerateKey (inr err2)]
| shape_not_created contents err pk sk err3 :
    IsNotExist (Some err) = true -> create = true ->
    push_key_shape filePath create (contents, Some err)
      (Returned (Err (Wrap ErrInternal err3)))
      [Ev (ReadFile filePath) (contents, Some err);
       Ev (MkdirAll (path_Dir filePath) mode_0700) None;
       Ev GenerateKey (inl (pk, sk));
       Ev (Create filePath) (Some err3)]
| shape_not_written contents err pk sk err4 :
    IsNotExist (Some err) = true -> create = true ->
    push_key_shape filePath create (contents, Some err)
      (Returned (Err (Wrap ErrInternal err4)))
      [Ev (ReadFile filePath) (contents, Some err);
       Ev (MkdirAll (path_Dir filePath) mode_0700) None;
       Ev GenerateKey (inl (pk, sk));
       Ev (Create filePath) None;
       Ev (WriteFile filePath (key_bytes pk ++ key_bytes sk) mode_0600) (Some err4)]
| shape_created contents err pk sk :
    IsNotExist (Some err) = true -> create = true ->
    push_key_shape filePath create (contents, Some err)
      (Returned (Ok (key_bytes pk, key_bytes sk)))
      [Ev (ReadFile filePath) (contents, Some err);
       Ev (MkdirAll (path_Dir filePath) mode_0700) None;
       Ev GenerateKey (inl (pk, sk));
       Ev (Create filePath) None;
       Ev (WriteFile filePath (key_bytes pk ++ key_bytes sk) mode_0600) None].

End PushKeyShape.

(** ** The ways [GetRootDatastoreForPath] can go *)

Section RootShape.
Context `{GoLib}.

(** The message of the check of lines 212-221 when it refuses, from the
    key and the answers of [os.Stat] and [sqlite3.IsEncrypted]. *)
Definition key_refused (key : list byte) (st : option error)
    (probe : bool * option error) : option string :=
  let hasDB := bool_decide (st = None) in
  let hasEncryptedDB := if bool_decide (probe.2 <> None) then false else probe.1 in
  if bool_decide (key = []) then
    if hasDB && hasEncryptedDB then Some "missing storage key, db is encrypted"
    else None
  else
    if hasDB && negb hasEncryptedDB
    then Some "storage key provided while datastore db is NOT encrypted"
    else None.

(** The calls up to the [sql.Open], when the check passes. *)
Definition root_prelude (dir : string) (key : list byte) (logger : Logger)
    (st : option error) (probe : bool * option error) : list event :=
  [Ev (MkdirAll dir ModePerm) None;
   Ev (Stat (filepath_Join [dir; "datastore.sqlite"])) st;
   Ev (IsEncrypted (filepath_Join [dir; "datastore.sqlite"])) probe]
  ++ (if bool_decide (key = [])
      then [Ev (Warn logger "root datastore encryption disabled: no key provided" []) tt]
      else []).

Definition root_url (dir : string) (key : list byte) : string :=
  if bool_decide (key = []) then filepath_Join [dir; "datastore.sqlite"]
  else encrypted_url (filepath_Join [dir; "datastore.sqlite"]) (EncodeToString key).

(** [root_shape dir key logger o tr]: the outcome [o] and the trace [tr]
    are those of one of the six paths through the function. *)
Inductive root_shape (dir : string) (key : list byte) (logger : Logger)
  : outcome (result Datastore) -> list event -> Prop :=
| root_in_memory :
    dir = InMemoryDir ->
    root_shape dir key logger (Returned (Ok (MutexWrap NewMapDatastore))) []
| root_no_directory err :
    dir <> InMemoryDir ->
    root_shape dir key logger (Returned (Err (Wrap TODO err)))
      [Ev (MkdirAll dir ModePerm) (Some err)]
| root_refused st probe msg :
    dir <> InMemoryDir ->
    key_refused key st probe = Some msg ->
    root_shape dir key logger (Returned (Err (Wrap ErrInvalidInput (New msg))))
      [Ev (MkdirAll dir ModePerm) None;
       Ev (Stat (filepath_Join [dir; "datastore.sqlite"])) st;
       Ev (IsEncrypted (filepath_Join [dir; "datastore.sqlite"])) probe]
| root_not_opened st probe db err :
    dir <> InMemoryDir ->
    key_refused key st probe = None ->
    root_shape dir key logger (Returned (Err (Wrap ErrDBOpen err)))
      (root_prelude dir key logger st probe
       ++ [Ev (SqlOpen "sqlite3" (root_url dir key)) (db, Some err)])
| root_no_table st probe db err :
    dir <> InMemoryDir ->
    key_refused key st probe = None ->
    root_shape dir key logger (Returned (Err (Wrap ErrDBWrite err)))
      (root_prelude dir key logger st probe
       ++ [Ev (SqlOpen "sqlite3" (root_url dir key)) (db, None);
           Ev (DbExec db (create_table_stmt "blocks")) (Some err)])
| root_opened st probe db :
    dir <> InMemoryDir ->
    key_refused key st probe = None ->
    root_shape dir key logger
      (Returned (Ok (MutexWrap (NewDatastore db "blocks"))))
      (root_prelude dir key logger st probe
       ++ [Ev (SqlOpen "sqlite3" (root_url dir key)) (db, None);
           Ev (DbExec db (create_table_stmt "blocks")) None]).

End RootShape.

(** ** What a trace did *)

(** The paths that the calls of a trace create or write, in order. *)
Fixpoint written (tr : list event) : list string :=
  match tr with
  | [] => []
  | Ev e _ :: tr' =>
      match e with
      | WriteFile p _ _ | MkdirAll p _ | Create p => p :: written tr'
      | _ => written tr'
      end
  end.

(** The files that the calls of a trace read, in order. *)
Fixpoint read_files (tr : list event) : list string :=
  match tr with
  | [] => []
  | Ev e _ :: tr' =>
      match e with
      | ReadFile p => p :: read_files tr'
      | _ => read_files tr'
      end
  end.

(** The messages that a trace logs as warnings, in order. *)
Fixpoint warned (tr : list event) : list string :=
  match tr with
  | [] => []
  | Ev e _ :: tr' =>
      match e with
      | Warn _ msg _ => msg :: warned tr'
      | _ => warned tr'
      end
  end.

(** The database handles that a trace closes, in order. *)
Fixpoint closed (tr : list event) : list DB :=
  match tr with
  | [] => []
  | Ev e _ :: tr' =>
      match e with
      | DbClose db => db :: closed tr'
      | _ => closed tr'
      end
  end.

(** The entries that a trace puts into a keystore, in order. *)
Fixpoint puts (tr : list event) : list (string * list byte) :=
  match tr with
  | [] => []
  | Ev e _ :: tr' =>
      match e with
      | KsPut _ name data => (name, data) :: puts tr'
      | _ => puts tr'
      end
  end.

(** The connection string and configuration of each [gorm.Open] of a
    trace. *)
Fixpoint gorm_calls (tr : list event) : list (string * GormConfig) :=
  match tr with
  | [] => []
  | Ev e _ :: tr' =>
      match e with
      | GormOpen conn cfg => (conn, cfg) :: gorm_calls tr'
      | _ => gorm_calls tr'
      end
  end.

(** A call that only looks at the file system, or logs. *)
Definition looks_only (ev : event) : bool :=
  match ev with
  | Ev e _ =>
      match e with
      | ReadFile _ | Stat _ | ReadDir _ | Warn _ _ _ => true
      | _ => false
      end
  end.

(** A successful [Get] of the keystore can be repeated. *)
Definition get_stable {W : Type} (h : forall X : Type, osE X -> W -> X * W) : Prop :=
  forall ks name v w w',
    h _ (KsGet ks name) w = ((v, None), w') ->
    h _ (KsGet ks name) w' = ((v, None), w').

(** * Properties *)

(** ** Running computations *)

Section RunFacts.
Context {W : Type} (h : forall X : Type, osE X -> W -> X * W).

Lemma run_bind {A B : Type} (m : prog A) (f : A -> prog B) (w : W) :
  run h (m ≫= f) w =
  match run h m w with
  | (Returned a, w1, t1) =>
      let '(o, w2, t2) := run h (f a) w1 in (o, w2, (t1 ++ t2)%list)
  | (Panicked p, w1, t1) => (Panicked p, w1, t1)
  end.
Proof.
  revert w. induction m as [a|p|X e k IH]; intros w; simpl.
  - change (Ret a ≫= f) with (f a). by destruct (run h (f a) w) as [[o w2] t2].
  - done.
  - change (Vis e k ≫= f) with (Vis e (fun x => k x ≫= f)). simpl.
    destruct (h X e w) as [x w1]. rewrite IH.
    destruct (run h (k x) w1) as [[[a|p] w2] t1]; last done.
    by destruct (run h (f a) w2) as [[o w3] t2].
Qed.

Lemma run_call {A X : Type} (e : osE X) (k : X -> prog A) (w : W) :
  run h (call e ≫= k) w =
  let '(x, w1) := h _ e w in
  let '(o, w2, tr) := run h (k x) w1 in (o, w2, Ev e x :: tr).
Proof. reflexivity. Qed.

Lemma run_ret {A : Type} (a : A) (w : W) : run h (Ret a) w = (Returned a, w, []).
Proof. reflexivity. Qed.
End RunFacts.

(** ** Slices and loops *)

Lemma ret_bind {A B : Type} (a : A) (f : A -> prog B) : Ret a ≫= f = f a.
Proof. reflexivity. Qed.

Lemma panic_bind {A B : Type} (p : panic) (f : A -> prog B) : Panic p ≫= f = Panic p.
Proof. reflexivity. Qed.

Lemma index_ok {A : Type} (l : list A) (i : nat) (x : A) :
  l !! i = Some x -> index l i = Ret x.
Proof. intros E. unfold index. by rewrite E. Qed.

Lemma index_out {A : Type} (l : list A) (i : nat) :
  length l <= i -> index l i = Panic (IndexOutOfRange i (length l)).
Proof. intros E. unfold index. by rewrite (proj2 (lookup_ge_None l i) E). Qed.

Lemma store_ok {A : Type} (l : list A) (i : nat) (x : A) :
  i < length l -> store l i x = Ret (<[i := x]> l).
Proof. intros E. unfold store. by rewrite decide_True. Qed.

Lemma index_cases {A : Type} (l : list A) (i : nat) :
  (exists x, index l i = Ret x) \/ (exists p, index l i = Panic p).
Proof. unfold index. destruct (l !! i); eauto. Qed.

Lemma store_cases {A : Type} (l : list A) (i : nat) (x : A) :
  (exists l', store l i x = Ret l') \/ (exists p, store l i x = Panic p).
Proof. unfold store. destruct (decide (i < length l)); eauto. Qed.

Lemma insert_take_replicate {A : Type} (l : list A) (i n : nat) (x d : A) :
  l !! i = Some x ->
  <[i := x]> (take i l ++ replicate (S n) d) = take (S i) l ++ replicate n d.
Proof.
  intros E.
  assert (length (take i l) = i) as L.
  { rewrite length_take. apply lookup_lt_Some in E. lia. }
  rewrite insert_app_r_alt; last lia.
  rewrite L, Nat.sub_diag. simpl.
  rewrite (take_S_r l i x E). by rewrite <- app_assoc.
Qed.

Section Loops.
Context `{GoLib}.

(** A key file of at least [2*KeySize] bytes splits at [KeySize]. *)
Lemma split_keys_long (contents : list byte) :
  KeySize * 2 <= length contents ->
  split_keys contents =
  Ret (take KeySize contents, take KeySize (drop KeySize contents)).
Proof.
  unfold split_keys. generalize KeySize as K. intros K HK.
  assert (forall n from, from + n = K ->
    for_range from n (fun i '(pkVal, skVal) =>
        a ← index contents i ;
        pkVal ← store pkVal i a ;
        b ← index contents (i + K) ;
        skVal ← store skVal i b ;
        Ret (pkVal, skVal))
      (take from contents ++ replicate n x00,
       take from (drop K contents) ++ replicate n x00)
    = Ret (take K contents, take K (drop K contents))) as G.
  { induction n as [|n IH]; intros from E.
    - simpl. rewrite !app_nil_r. replace from with K by lia. done.
    - assert (is_Some (contents !! from)) as [a Ea].
      { apply lookup_lt_is_Some. lia. }
      assert (is_Some (contents !! (from + K))) as [b Eb].
      { apply lookup_lt_is_Some. lia. }
      assert (drop K contents !! from = Some b) as Eb'.
      { rewrite lookup_drop. by rewrite Nat.add_comm. }
      cbn [for_range].
      rewrite (index_ok _ _ _ Ea), ret_bind.
      rewrite store_ok.
      2:{ rewrite length_app, length_take, length_replicate. lia. }
      rewrite ret_bind, (index_ok _ _ _ Eb), ret_bind.
      rewrite store_ok.
      2:{ rewrite length_app, length_take, length_drop, length_replicate. lia. }
      rewrite !ret_bind.
      rewrite (insert_take_replicate _ _ _ _ _ Ea).
      rewrite (insert_take_replicate _ _ _ _ _ Eb').
      apply IH. lia. }
  specialize (G K 0). simpl in G. apply G. lia.
Qed.

(** A shorter file makes the loop read past the end. *)
Lemma split_keys_short (contents : list byte) :
  length contents < KeySize * 2 ->
  exists p, split_keys contents = Panic p.
Proof.
  unfold split_keys. generalize KeySize as K. intros K HK.
  generalize (replicate K x00, replicate K x00).
  set (j := length contents - K).
  assert (forall n from s, from <= j < from + n ->
    exists p, for_range from n (fun i '(pkVal, skVal) =>
        a ← index contents i ;
        pkVal ← store pkVal i a ;
        b ← index contents (i + K) ;
        skVal ← store skVal i b ;
        Ret (pkVal, skVal)) s = Panic p) as G.
  { induction n as [|n IH]; intros from [pkVal skVal] E; first lia.
    cbn [for_range].
    destruct (index_cases contents from) as [[a ->]|[p ->]]; last by eauto.
    rewrite ret_bind.
    destruct (store_cases pkVal from a) as [[pk' ->]|[p ->]]; last by eauto.
    rewrite ret_bind.
    destruct (decide (from = j)) as [->|Hne].
    - rewrite index_out; last (unfold j; lia). eauto.
    - destruct (index_cases contents (from + K)) as [[b ->]|[p ->]]; last by eauto.
      rewrite ret_bind.
      destruct (store_cases skVal from b) as [[sk' ->]|[p ->]]; last by eauto.
      rewrite !ret_bind. apply IH. lia. }
  intros s. apply (G K 0 s). unfold j. lia.
Qed.

(** The buffer written to a new key file is the public key followed by
    the secret key. *)
Lemma join_keys_ok (pk sk : KeyArr) :
  join_keys pk sk = Ret (key_bytes pk ++ key_bytes sk)%list.
Proof.
  unfold join_keys.
  destruct pk as [pkb Lp], sk as [skb Ls]. simpl key_bytes.
  revert Lp Ls. generalize KeySize as K. intros K Lp Ls.
  assert (forall n from, from + n = K ->
    for_range from n (fun i contents =>
        a ← index pkb i ;
        contents ← store contents i a ;
        b ← index skb i ;
        store contents (i + K) b)
      ((take from pkb ++ replicate n x00) ++ (take from skb ++ replicate n x00))%list
    = Ret (pkb ++ skb)%list) as G.
  { induction n as [|n IH]; intros from E.
    - simpl. rewrite !app_nil_r. rewrite !take_ge by lia. done.
    - assert (is_Some (pkb !! from)) as [a Ea].
      { apply lookup_lt_is_Some. lia. }
      assert (is_Some (skb !! from)) as [b Eb].
      { apply lookup_lt_is_Some. lia. }
      assert (length (take from pkb ++ replicate (S n) x00) = K) as L1.
      { rewrite length_app, length_take, length_replicate. lia. }
      assert (length (take from skb ++ replicate (S n) x00) = K) as L2.
      { rewrite length_app, length_take, length_replicate. lia. }
      cbn [for_range].
      rewrite (index_ok _ _ _ Ea), ret_bind.
      rewrite store_ok; last (rewrite length_app; lia).
      rewrite ret_bind, (index_ok _ _ _ Eb), ret_bind.
      rewrite store_ok; last (rewrite length_insert, length_app; lia).
      rewrite insert_app_l by lia.
      rewrite (insert_take_replicate _ _ _ _ _ Ea).
      rewrite insert_app_r_alt.
      2:{ rewrite length_app, length_take, length_replicate. lia. }
      replace (from + K - length (take (S from) pkb ++ replicate n x00)) with from.
      2:{ rewrite length_app, length_take, length_replicate. lia. }
      rewrite (insert_take_replicate _ _ _ _ _ Eb).
      apply IH. lia. }
  specialize (G K 0). simpl in G.
  replace (K * 2) with (K + K) by lia. rewrite replicate_add. apply G. lia.
Qed.
End Loops.

(** ** The device push key *)

Section PushKey.
Context `{GoLib} {W : Type} (h : forall X : Type, osE X -> W -> X * W).

(** An existing file of at least [2*KeySize] bytes is split at the
    midpoint, with no other call than the read. *)
Lemma GetDevicePushKeyForPath_read (filePath : string) (create : bool)
    (contents : list byte) (w w1 : W) :
  h _ (ReadFile filePath) w = ((contents, None), w1) ->
  KeySize * 2 <= length contents ->
  run h (GetDevicePushKeyForPath filePath create) w =
  (Returned (Ok (take KeySize contents, take KeySize (drop KeySize contents))),
   w1, [Ev (ReadFile filePath) (contents, None)]).
Proof.
  intros Hr Hl. unfold GetDevicePushKeyForPath.
  rewrite run_call, Hr. cbn [IsNotExist andb].
  rewrite bool_decide_eq_false_2 by (intros E; by apply E).
  by rewrite (split_keys_long _ Hl).
Qed.

(** An existing file of fewer bytes makes the function panic. *)
Lemma GetDevicePushKeyForPath_short (filePath : string) (create : bool)
    (contents : list byte) (w w1 : W) :
  h _ (ReadFile filePath) w = ((contents, None), w1) ->
  length contents < KeySize * 2 ->
  exists p, run h (GetDevicePushKeyForPath filePath create) w =
            (Panicked p, w1, [Ev (ReadFile filePath) (contents, None)]).
Proof.
  intros Hr Hl. unfold GetDevicePushKeyForPath.
  rewrite run_call, Hr. cbn [IsNotExist andb].
  rewrite bool_decide_eq_false_2 by (intros E; by apply E).
  destruct (split_keys_short _ Hl) as [p ->]. by exists p.
Qed.

(** C2 (as amended).  When the key file does not exist and
    [createIfMissing] is false, the function returns the error
    [ErrPushUnableToDecrypt] wrapping "unable to get device push key",
    and its only call is the read of the file: nothing is created or
    written, and the environment is left as that read left it. *)
Theorem push_key_absent_no_create (filePath : string) (contents : list byte)
    (err : error) (w w1 : W) :
  h _ (ReadFile filePath) w = ((contents, Some err), w1) ->
  IsNotExist (Some err) = true ->
  run h (GetDevicePushKeyForPath filePath false) w =
  (Returned (Err (Wrap ErrPushUnableToDecrypt (New "unable to get device push key"))),
   w1, [Ev (ReadFile filePath) (contents, Some err)]).
Proof.
  intros Hr Hn.
  unfold GetDevicePushKeyForPath. rewrite run_call, Hr, Hn.
  cbn [andb]. by rewrite bool_decide_eq_true_2.
Qed.

(** C5.  On a file system where a written file reads back and a read
    can be repeated: when a call with [createIfMissing = true] has
    returned a pair of keys, the next call on the same path returns the
    same pair, and its only call is a successful read of the file, so it
    creates and writes nothing. *)
Theorem push_key_idempotent (filePath : string) (pk sk : list byte)
    (w w1 : W) (t1 : list event) :
  read_after_write h ->
  read_stable h ->
  run h (GetDevicePushKeyForPath filePath true) w = (Returned (Ok (pk, sk)), w1, t1) ->
  exists contents,
    run h (GetDevicePushKeyForPath filePath true) w1 =
    (Returned (Ok (pk, sk)), w1, [Ev (ReadFile filePath) (contents, None)]).
Proof.
  intros Hraw Hst Hrun.
  unfold GetDevicePushKeyForPath in Hrun. rewrite run_call in Hrun.
  destruct (h _ (ReadFile filePath) w) as [[c [e|]] w0] eqn:Hr.
  - (* the file could not be read *)
    destruct (IsNotExist (Some e)) eqn:Hn; cbn [andb] in Hrun.
    + rewrite run_call in Hrun.
      destruct (h _ (MkdirAll (path_Dir filePath) mode_0700) w0) as [[e1|] w2];
        first done.
      rewrite run_call in Hrun.
      destruct (h _ GenerateKey w2) as [[[k1 k2]|e2] w3]; last done.
      rewrite join_keys_ok, ret_bind, run_call in Hrun.
      destruct (h _ (Create filePath) w3) as [[e3|] w4]; first done.
      rewrite run_call in Hrun.
      destruct (h _ (WriteFile filePath (key_bytes k1 ++ key_bytes k2) mode_0600) w4)
        as [[e4|] w5] eqn:Hw; first done.
      simpl in Hrun. injection Hrun as <- <- <- _.
      exists (key_bytes k1 ++ key_bytes k2).
      rewrite (GetDevicePushKeyForPath_read _ _ _ _ _ (Hraw _ _ _ _ _ Hw)).
      2:{ rewrite length_app, !key_len. lia. }
      rewrite take_app_length' by (symmetry; apply key_len).
      rewrite drop_app_length' by (symmetry; apply key_len).
      rewrite take_ge by (rewrite key_len; lia). done.
    + rewrite bool_decide_eq_true_2 in Hrun by done. done.
  - (* the file was there *)
    cbn [IsNotExist andb] in Hrun.
    rewrite bool_decide_eq_false_2 in Hrun by (intros E; by apply E).
    exists c.
    destruct (decide (KeySize * 2 <= length c)) as [Hl|Hl].
    + rewrite (split_keys_long _ Hl) in Hrun. simpl in Hrun.
      injection Hrun as <- <- <- _.
      by apply GetDevicePushKeyForPath_read; first apply (Hst _ _ _ _ Hr).
    + destruct (split_keys_short c) as [p Hp]; first lia.
      rewrite Hp in Hrun. done.
Qed.
End PushKey.

(** The reference file system reads back what was written. *)
Lemma Sim_read_after_write : read_after_write Sim.handler.
Proof.
  intros p data perm w w'. simpl. unfold Sim.write.
  destruct (negb _); first by intros [=].
  destruct (bool_decide _); first by intros [=].
  intros [= <-]. simpl. by rewrite lookup_insert_eq.
Qed.

Lemma Sim_read_stable : read_stable Sim.handler.
Proof.
  intros p c w w'. simpl.
  destruct (Sim.fs w !! p) as [[c'|]|] eqn:E; intros [= <- <-]; by rewrite E.
Qed.

Lemma push_key_absent_no_create_witness :
  run Sim.handler (GetDevicePushKeyForPath "acc/push.key" false) Examples.fresh =
  (Returned (Err (Wrap ErrPushUnableToDecrypt (New "unable to get device push key"))),
   Examples.fresh, [Ev (ReadFile "acc/push.key") ([], Some Sim.ENOENT)]).
Proof.
  apply (push_key_absent_no_create Sim.handler "acc/push.key" [] Sim.ENOENT
           Examples.fresh Examples.fresh); reflexivity.
Defined.

(** C2 (as stated) fails: with no key file and [createIfMissing = false]
    the returned error does not carry a not-found code. *)
Lemma push_key_absent_is_not_NotFound :
  ~ exists c, is_not_found c = true /\
      fails_with c
        (run Sim.handler (GetDevicePushKeyForPath "acc/push.key" false) Examples.fresh).1.1.
Proof.
  intros (c & Hc & e & He & Hcode).
  vm_compute in He. injection He as <-.
  injection Hcode as <-. discriminate Hc.
Qed.

(** C3 (the code at a failing input).  On a key file of ten bytes the
    function does not return an error: it panics, reading index 32 of a
    slice of length 10. *)
Theorem push_key_truncated_file_panics :
  run Sim.handler (GetDevicePushKeyForPath "acc/push.key" false) Examples.truncated =
  (Panicked (IndexOutOfRange 32 10), Examples.truncated,
   [Ev (ReadFile "acc/push.key") (replicate 10 x07, None)]).
Proof. vm_compute. reflexivity. Qed.

Lemma push_key_idempotent_witness :
  exists contents,
    run Sim.handler (GetDevicePushKeyForPath "acc/push.key" true) Examples.first_call.1.2 =
    (Returned (Ok (key_bytes Examples.pk1, key_bytes Examples.sk1)),
     Examples.first_call.1.2,
     [Ev (ReadFile "acc/push.key") (contents, None)]).
Proof.
  apply (push_key_idempotent Sim.handler "acc/push.key" _ _ Examples.fresh
           Examples.first_call.1.2 Examples.first_call.2
           Sim_read_after_write Sim_read_stable).
  vm_compute. reflexivity.
Defined.

(** ** The storage key *)

Section StorageKey.
Context {W : Type} (h : forall X : Type, osE X -> W -> X * W).

(** C4.  For every keystore, played by any environment:
    - when the first [Get] succeeds, its value is returned and no other
      call is made (no [Put]);
    - when it fails and the random bytes are drawn, the bytes are
      stored, and the value returned is the one a second [Get] gives,
      whatever the bytes drawn were;
    - when the [Put] or the second [Get] fails, the returned error wraps
      the first [Get]'s error appended with that second error. *)
Theorem storage_key_get_or_create (ks : Keystore) (w : W) :
  (forall key w1,
      h _ (KsGet ks StorageKeyName) w = ((key, None), w1) ->
      run h (GetOrCreateStorageKey ks) w =
      (Returned (Ok key), w1, [Ev (KsGet ks StorageKeyName) (key, None)]))
  /\
  (forall key0 getErr w1 keyData w2,
      h _ (KsGet ks StorageKeyName) w = ((key0, Some getErr), w1) ->
      h _ (CrandRead KeySize) w1 = ((keyData, None), w2) ->
      let first := [Ev (KsGet ks StorageKeyName) (key0, Some getErr);
                    Ev (CrandRead KeySize) (keyData, None)] in
      (forall key w3 w4,
          h _ (KsPut ks StorageKeyName keyData) w2 = (None, w3) ->
          h _ (KsGet ks StorageKeyName) w3 = ((key, None), w4) ->
          run h (GetOrCreateStorageKey ks) w =
          (Returned (Ok key), w4,
           first ++ [Ev (KsPut ks StorageKeyName keyData) None;
                     Ev (KsGet ks StorageKeyName) (key, None)]))
      /\
      (forall putErr w3,
          h _ (KsPut ks StorageKeyName keyData) w2 = (Some putErr, w3) ->
          run h (GetOrCreateStorageKey ks) w =
          (Returned (Err (Wrap ErrKeystoreGet (Append getErr putErr))), w3,
           first ++ [Ev (KsPut ks StorageKeyName keyData) (Some putErr)]))
      /\
      (forall key err w3 w4,
          h _ (KsPut ks StorageKeyName keyData) w2 = (None, w3) ->
          h _ (KsGet ks StorageKeyName) w3 = ((key, Some err), w4) ->
          run h (GetOrCreateStorageKey ks) w =
          (Returned (Err (Wrap ErrKeystorePut (Append getErr err))), w4,
           first ++ [Ev (KsPut ks StorageKeyName keyData) None;
                     Ev (KsGet ks StorageKeyName) (key, Some err)]))).
Proof.
  split.
  - intros key w1 Hg. unfold GetOrCreateStorageKey. by rewrite run_call, Hg.
  - intros key0 getErr w1 keyData w2 Hg Hr first. split; [|split].
    + intros key w3 w4 Hp Hg2. unfold GetOrCreateStorageKey.
      rewrite run_call, Hg, run_call, Hr, run_call, Hp, run_call, Hg2. done.
    + intros putErr w3 Hp. unfold GetOrCreateStorageKey.
      rewrite run_call, Hg, run_call, Hr, run_call, Hp. done.
    + intros key err w3 w4 Hp Hg2. unfold GetOrCreateStorageKey.
      rewrite run_call, Hg, run_call, Hr, run_call, Hp, run_call, Hg2. done.
Qed.
End StorageKey.

Lemma storage_key_get_or_create_witness :
  (run Sim.handler (GetOrCreateStorageKey KeystoreExamples.ks) KeystoreExamples.filled).1.1
  = Returned (Ok KeystoreExamples.held)
  /\
  (run Sim.handler (GetOrCreateStorageKey KeystoreExamples.ks) KeystoreExamples.wrapping).1.1
  = Returned (Ok (x01 :: KeystoreExamples.drawn))
  /\
  (run Sim.handler (GetOrCreateStorageKey KeystoreExamples.ks) KeystoreExamples.rejecting).1.1
  = Returned (Err (Wrap ErrKeystoreGet
                     (Append KeystoreExamples.missing
                             (External "keystore: read only" false))))
  /\
  (run Sim.handler (GetOrCreateStorageKey KeystoreExamples.ks) KeystoreExamples.dropping).1.1
  = Returned (Err (Wrap ErrKeystorePut
                     (Append KeystoreExamples.missing KeystoreExamples.missing))).
Proof.
  split; [|split; [|split]].
  - erewrite (proj1 (storage_key_get_or_create Sim.handler KeystoreExamples.ks
                       KeystoreExamples.filled)); reflexivity.
  - pose proof (proj2 (storage_key_get_or_create Sim.handler KeystoreExamples.ks
                         KeystoreExamples.wrapping)) as G.
    edestruct G as (G1 & _ & _); [reflexivity | reflexivity |].
    erewrite G1; reflexivity.
  - pose proof (proj2 (storage_key_get_or_create Sim.handler KeystoreExamples.ks
                         KeystoreExamples.rejecting)) as G.
    edestruct G as (_ & G2 & _); [reflexivity | reflexivity |].
    erewrite G2; reflexivity.
  - pose proof (proj2 (storage_key_get_or_create Sim.handler KeystoreExamples.ks
                         KeystoreExamples.dropping)) as G.
    edestruct G as (_ & _ & G3); [reflexivity | reflexivity |].
    erewrite G3; reflexivity.
Defined.

(** ** Account metadata *)

Section Accounts.
Context `{GoLib} {W : Type} (h : forall X : Type, osE X -> W -> X * W).

(** The lookup of one account always returns. *)
Lemma GetAccountMetaForName_returns (rootDir accountID : string)
    (logger : option Logger) (w : W) :
  exists r w' t,
    run h (GetAccountMetaForName rootDir accountID logger) w = (Returned r, w', t).
Proof.
  unfold GetAccountMetaForName. cbn zeta. rewrite run_call.
  destruct (h _ (ReadFile _) w) as [[metaBytes err] w1].
  destruct (IsNotExist err); first by eauto.
  destruct err as [err|].
  - rewrite run_call. destruct (h _ (Warn _ _ _) w1) as [[] w2]. by eauto.
  - destruct (proto_Unmarshal metaBytes); by eauto.
Qed.

(** A successful lookup carries the name it was asked for. *)
Lemma GetAccountMetaForName_id (rootDir accountID : string)
    (logger : option Logger) (w w' : W) (meta : AccountMetadata Rest)
    (t : list event) :
  run h (GetAccountMetaForName rootDir accountID logger) w = (Returned (Ok meta), w', t) ->
  AccountID meta = accountID.
Proof.
  unfold GetAccountMetaForName. cbn zeta. rewrite run_call.
  destruct (h _ (ReadFile _) w) as [[metaBytes err] w1].
  destruct (IsNotExist err); first by intros [=].
  destruct err as [err|].
  - rewrite run_call. destruct (h _ (Warn _ _ _) w1) as [[] w2]. by intros [=].
  - destruct (proto_Unmarshal metaBytes) as [m|e]; last by intros [=].
    simpl. by intros [= <- _ _].
Qed.

(** C7.  Whenever the lookup of an account succeeds, the [AccountID] of
    the metadata it returns is the [accountID] it was called with,
    whatever the file held. *)
Theorem account_meta_id_is_directory_name (rootDir accountID : string)
    (logger : option Logger) (w w' : W) (meta : AccountMetadata Rest)
    (t : list event) :
  run h (GetAccountMetaForName rootDir accountID logger) w = (Returned (Ok meta), w', t) ->
  AccountID meta = accountID.
Proof. apply GetAccountMetaForName_id. Qed.

Lemma listed_ids rootDir logger w items accounts w' :
  listed h rootDir logger w items accounts w' ->
  map AccountID accounts = map fi_Name (filter (fun i => fi_IsDir i = true) items).
Proof.
  induction 1 as [w|w item items accounts w' Hd _ IH
                 |w item items r w1 t accounts w' Hd Hrun _ IH].
  - done.
  - rewrite filter_cons_False by (rewrite Hd; done). done.
  - rewrite filter_cons_True by done. simpl. rewrite IH. f_equal.
    destruct r as [meta|err]; last done.
    simpl. by eapply GetAccountMetaForName_id.
Qed.

Lemma list_loop (rootDir : string) (logger : Logger) (items : list FileInfo) :
  forall (acc : list (AccountMetadata Rest)) (w : W),
  exists accounts w' t,
    run h (for_each items (fun subitem accounts =>
        if negb (fi_IsDir subitem) then Ret accounts
        else
          r ← GetAccountMetaForName rootDir (fi_Name subitem) (Some logger) ;
          match r with
          | Err err =>
              Ret (accounts ++
                   [mkAccountMetadata (fi_Name subitem) (error_Error err) rest_zero])
          | Ok account => Ret (accounts ++ [account])
          end) acc) w = (Returned (acc ++ accounts), w', t)
    /\ listed h rootDir logger w items accounts w'.
Proof.
  induction items as [|item items IH]; intros acc w.
  - exists [], w, []. rewrite app_nil_r. split; [done | constructor].
  - cbn [for_each]. rewrite run_bind.
    destruct (fi_IsDir item) eqn:Hd; cbn [negb].
    + rewrite run_bind.
      destruct (GetAccountMetaForName_returns rootDir (fi_Name item) (Some logger) w)
        as (r & w1 & t1 & Hr).
      rewrite Hr.
      destruct (IH (acc ++ [entry_of (fi_Name item) r]) w1) as (accs & w' & t & Hl & HL).
      exists (entry_of (fi_Name item) r :: accs), w', (t1 ++ [] ++ t).
      split; last by eapply listed_dir.
      destruct r as [meta|err]; simpl in *; rewrite Hl;
        by rewrite <- app_assoc, app_nil_r.
    + destruct (IH acc w) as (accs & w' & t & Hl & HL).
      exists accs, w', t. split; last by apply listed_file.
      rewrite run_ret. cbn beta iota. by rewrite Hl.
Qed.

(** C6.  When the root exists and its entries can be read,
    [ListAccounts] returns a list and no error: one entry per
    subdirectory, in the order of the directory listing, each carrying
    the subdirectory's name as [AccountID].  The entry of a subdirectory
    whose metadata lookup fails holds only that name and the text of the
    lookup's error; the entry of any other subdirectory is the metadata
    the lookup returned. *)
Theorem list_accounts_resilient (rootDir : string) (logger : option Logger)
    (w w1 w2 : W) (subitems : list FileInfo) :
  h _ (Stat rootDir) w = (None, w1) ->
  h _ (ReadDir rootDir) w1 = ((subitems, None), w2) ->
  exists accounts w' t,
    run h (ListAccounts rootDir logger) w = (Returned (Ok accounts), w', t)
    /\ listed h rootDir (default NopLogger logger) w2 subitems accounts w'
    /\ length accounts = length (filter (fun i => fi_IsDir i = true) subitems)
    /\ map AccountID accounts
       = map fi_Name (filter (fun i => fi_IsDir i = true) subitems).
Proof.
  intros Hs Hd. unfold ListAccounts. cbn zeta.
  rewrite run_call, Hs. cbn [IsNotExist]. rewrite run_call, Hd, run_bind.
  destruct (list_loop rootDir (default NopLogger logger) subitems [] w2)
    as (accounts & w' & t & Hl & HL).
  rewrite Hl. simpl.
  exists accounts, w', (Ev (Stat rootDir) None :: Ev (ReadDir rootDir) (subitems, None)
                        :: t ++ []).
  split; first done. split; first done.
  pose proof (listed_ids _ _ _ _ _ _ HL) as Hids.
  split; last done.
  rewrite <- (length_map AccountID), Hids. by rewrite length_map.
Qed.
End Accounts.

Lemma account_meta_id_is_directory_name_witness :
  AccountID (mkAccountMetadata "real-id" "" (list_byte_of_string "alice")) = "real-id".
Proof.
  apply (account_meta_id_is_directory_name (H := Sim.lib) Sim.handler
           "accounts" "real-id" None
           AccountExamples.root AccountExamples.root _
           (run Sim.handler (GetAccountMetaForName "accounts" "real-id" None)
                AccountExamples.root).2).
  vm_compute. reflexivity.
Defined.

Lemma list_accounts_resilient_witness :
  exists accounts w' t,
    run Sim.handler (ListAccounts "accounts" None) AccountExamples.root
    = (Returned (Ok accounts), w', t)
    /\ listed Sim.handler "accounts" NopLogger AccountExamples.root
              AccountExamples.entries accounts w'
    /\ length accounts
       = length (filter (fun i => fi_IsDir i = true) AccountExamples.entries)
    /\ map AccountID accounts
       = map fi_Name (filter (fun i => fi_IsDir i = true) AccountExamples.entries).
Proof.
  apply (list_accounts_resilient (H := Sim.lib) Sim.handler "accounts" None
           AccountExamples.root AccountExamples.root AccountExamples.root
           AccountExamples.entries).
  - vm_compute. reflexivity.
  - vm_compute. reflexivity.
Defined.

(** The listing of the example: three entries, the malformed account as a
    placeholder. *)
Example list_accounts_example :
  (run Sim.handler (ListAccounts "accounts" None) AccountExamples.root).1.1
  = Returned (Ok [mkAccountMetadata "c" "" (list_byte_of_string "carol");
                  mkAccountMetadata "real-id" "" (list_byte_of_string "alice");
                  mkAccountMetadata "b" "ErrDeserialization(#104)" []]).
Proof. vm_compute. reflexivity. Qed.

(** ** The root datastore *)

Section RootDatastore.
Context `{GoLib} {W : Type} (h : forall X : Type, osE X -> W -> X * W).

Lemma fails_with_wrap {T : Type} (c c' : ErrCode) (e : error) :
  @fails_with T c (Returned (Err (Wrap c' e))) <-> c' = c.
Proof.
  split.
  - intros (e' & [= <-] & [= ->]). done.
  - intros ->. by eexists.
Qed.

Lemma fails_with_ok {T : Type} (c : ErrCode) (v : T) :
  ~ fails_with c (Returned (Ok v)).
Proof. by intros (e' & [=] & _). Qed.

Lemma db_url_run (dbPath : string) (key : list byte) (logger : Logger)
    (hasDB hasEncryptedDB : bool) (w : W) :
  run h (db_url dbPath key logger hasDB hasEncryptedDB) w =
  if bool_decide (key = []) then
    if hasDB && hasEncryptedDB then
      (Returned (Err (Wrap ErrInvalidInput
                        (New "missing storage key, db is encrypted"))), w, [])
    else
      let e := Warn logger "root datastore encryption disabled: no key provided" [] in
      (Returned (Ok dbPath), (h _ e w).2, [Ev e (h _ e w).1])
  else
    if hasDB && negb hasEncryptedDB then
      (Returned (Err (Wrap ErrInvalidInput
         (New "storage key provided while datastore db is NOT encrypted"))), w, [])
    else
      (Returned (Ok (encrypted_url dbPath (EncodeToString key))), w, []).
Proof.
  unfold db_url. destruct key as [|b key]; simpl.
  - destruct (hasDB && hasEncryptedDB); first done.
    cbn [run]. by destruct (h _ (Warn _ _ _) w) as [[] w'].
  - by destruct (hasDB && negb hasEncryptedDB).
Qed.

(** Once the check has passed, exactly one database is opened, and no
    failure from there on is an [ErrInvalidInput]. *)
Lemma open_datastore_run (dbURL tableName : string) (w : W) :
  exists o w' t,
    run h (open_datastore dbURL tableName) w = (Returned o, w', t)
    /\ (forall e, o = Err e -> code_of e <> Some ErrInvalidInput)
    /\ opened t = [("sqlite3", dbURL)].
Proof.
  unfold open_datastore. rewrite run_call.
  destruct (h _ (SqlOpen _ _) w) as [[db [oerr|]] w1].
  - eexists _, _, _. split; first done. split; last done. by intros e [= <-].
  - rewrite run_call. destruct (h _ (DbExec _ _) w1) as [[xerr|] w2];
      (eexists _, _, _; split; first done; split; last done); by intros e [= <-].
Qed.

(** C1.  For a directory other than the sentinel that [os.MkdirAll]
    accepts, whatever the state of the database file (absent, plaintext,
    encrypted) and whatever the key: the function returns
    [ErrInvalidInput] exactly when the file is encrypted and the key is
    empty, or the file is plaintext and the key is not empty, and then
    opens nothing; in every other case it goes on to [sql.Open], once,
    on the path alone when the key is empty and on the path with the key
    parameters otherwise. *)
Theorem datastore_encryption_consistency (dir : string) (key : list byte)
    (logger : Logger) (w w1 w2 w3 : W) (st : option error)
    (probe : bool * option error) (state : EncryptionState) :
  dir <> InMemoryDir ->
  h _ (MkdirAll dir ModePerm) w = (None, w1) ->
  h _ (Stat (filepath_Join [dir; "datastore.sqlite"])) w1 = (st, w2) ->
  h _ (IsEncrypted (filepath_Join [dir; "datastore.sqlite"])) w2 = (probe, w3) ->
  encryption_state st probe = Some state ->
  let dbPath := filepath_Join [dir; "datastore.sqlite"] in
  let mismatch := (state = db_encrypted /\ key = []) \/
                  (state = db_plaintext /\ key <> []) in
  let r := run h (GetRootDatastoreForPath dir key logger) w in
  (fails_with ErrInvalidInput r.1.1 <-> mismatch)
  /\ (mismatch -> opened r.2 = [])
  /\ (~ mismatch ->
      opened r.2 = [("sqlite3",
                     if decide (key = []) then dbPath
                     else encrypted_url dbPath (EncodeToString key))]).
Proof.
  intros Hdir Hmk Hst Hpr Hstate dbPath mismatch r.
  assert (mismatch /\ (exists e, r = (Returned (Err e), w3,
              [Ev (MkdirAll dir ModePerm) None; Ev (Stat dbPath) st;
               Ev (IsEncrypted dbPath) probe])
            /\ code_of e = Some ErrInvalidInput)
          \/ ~ mismatch /\ (exists o w' t, r = (Returned o, w', t)
            /\ (forall e, o = Err e -> code_of e <> Some ErrInvalidInput)
            /\ opened t = [("sqlite3",
                     if decide (key = []) then dbPath
                     else encrypted_url dbPath (EncodeToString key))])) as G.
  { subst r. unfold GetRootDatastoreForPath. cbn zeta.
    rewrite bool_decide_eq_false_2 by done.
    rewrite run_bind, run_call, Hmk, run_call, Hst, run_call, Hpr.
    fold dbPath. destruct probe as [b perr].
    rewrite run_bind, db_url_run.
    destruct (decide (key = [])) as [Hk|Hk];
      [rewrite bool_decide_eq_true_2 by done
      |rewrite bool_decide_eq_false_2 by done];
      destruct st as [serr|], b, perr as [perr|];
      cbn [encryption_state] in Hstate; simplify_eq;
      rewrite ?(bool_decide_eq_true_2 (None = None)) by done;
      rewrite ?(bool_decide_eq_false_2 (Some _ = None)) by done;
      rewrite ?(bool_decide_eq_true_2 (Some _ <> None)) by done;
      rewrite ?(bool_decide_eq_false_2 (None <> None)) by (intros E; by apply E);
      cbn [andb negb]; cbn beta iota zeta; unfold mismatch.
    all: try (left; split; [first [by left | by right]|]; by eexists).
    all: right; split; [by intros [[? ?]|[? ?]]|].
    all: match goal with
         | |- context [run h (open_datastore ?u ?t) ?w'] =>
             destruct (open_datastore_run u t w') as (o & w4 & tr & -> & Ho & Hop)
         end.
    all: destruct o as [ds|e]; eexists _, _, _; (split; [done|]);
           (split; [first [by intros ? [=] | intros ? [= <-]; by apply Ho]|]);
           rewrite app_nil_r; cbn; rewrite Hop; done. }
  destruct G as [[Hm (e & -> & He)]|[Hm (o & w' & t & -> & Ho & Hop)]]; simpl.
  - split; [|done]. split; [done|]. intros _. by exists e.
  - split; [|split; [done|by rewrite Hop]].
    split; [|done]. intros (e & [= ->] & He). by destruct (Ho e).
Qed.
End RootDatastore.

Section ProbeFailure.
Context `{GoLib} {W : Type} (h : forall X : Type, osE X -> W -> X * W).

Lemma probe_error_as_plain_probe (p : string) (w : W) :
  probe_error_as_plain h _ (IsEncrypted p) w =
  ((match (h _ (IsEncrypted p) w).1.2 with
    | Some _ => false
    | None => (h _ (IsEncrypted p) w).1.1
    end, None), (h _ (IsEncrypted p) w).2).
Proof. simpl. by destruct (h _ (IsEncrypted p) w) as [[b err] w']. Qed.

Lemma open_datastore_same (dbURL tableName : string) (w : W) :
  run (probe_error_as_plain h) (open_datastore dbURL tableName) w
  = run h (open_datastore dbURL tableName) w.
Proof.
  unfold open_datastore. rewrite !run_call.
  change (probe_error_as_plain h _ (SqlOpen "sqlite3" dbURL) w)
    with (h _ (SqlOpen "sqlite3" dbURL) w).
  destruct (h _ (SqlOpen _ _) w) as [[db [oerr|]] w1]; first done.
  rewrite !run_call.
  change (probe_error_as_plain h _ (DbExec db (create_table_stmt tableName)) w1)
    with (h _ (DbExec db (create_table_stmt tableName)) w1).
  by destruct (h _ (DbExec _ _) w1) as [[xerr|] w2].
Qed.

(** C9.  Replacing every failing answer of the encryption probe by the
    answer "not encrypted, no error" changes nothing in what
    [GetRootDatastoreForPath] does: it returns the same result, leaves
    the same state and makes the same calls.  A failure of the probe is
    therefore never returned, and is treated as an unencrypted file. *)
Theorem probe_failure_is_not_encrypted (dir : string) (key : list byte)
    (logger : Logger) (w : W) :
  let r := run h (GetRootDatastoreForPath dir key logger) w in
  let r' := run (probe_error_as_plain h) (GetRootDatastoreForPath dir key logger) w in
  r.1 = r'.1 /\ map call_of r.2 = map call_of r'.2.
Proof.
  cbn zeta. unfold GetRootDatastoreForPath. cbn zeta.
  destruct (bool_decide (dir = InMemoryDir)); first done.
  rewrite (run_bind h), (run_bind (probe_error_as_plain h)), !run_call.
  change (probe_error_as_plain h _ (MkdirAll dir ModePerm) w)
    with (h _ (MkdirAll dir ModePerm) w).
  destruct (h _ (MkdirAll _ _) w) as [[merr|] w1]; first done.
  set (dbPath := filepath_Join [dir; "datastore.sqlite"]).
  rewrite !run_call.
  change (probe_error_as_plain h _ (Stat dbPath) w1) with (h _ (Stat dbPath) w1).
  destruct (h _ (Stat dbPath) w1) as [st w2].
  rewrite !run_call.
  rewrite probe_error_as_plain_probe.
  destruct (h _ (IsEncrypted dbPath) w2) as [[b perr] w3].
  cbn [fst snd]. cbn beta iota.
  rewrite (bool_decide_eq_false_2 (None <> None)) by (intros E; by apply E).
  assert ((if bool_decide (perr <> None) then false else b)
          = match perr with Some _ => false | None => b end) as ->.
  { destruct perr; last by rewrite bool_decide_eq_false_2 by (intros E; by apply E).
    by rewrite bool_decide_eq_true_2. }
  set (enc := match perr with Some _ => false | None => b end).
  rewrite (run_bind h), (run_bind (probe_error_as_plain h)), !db_url_run.
  cbn zeta.
  change (probe_error_as_plain h _
            (Warn logger "root datastore encryption disabled: no key provided" []) w3)
    with (h _ (Warn logger "root datastore encryption disabled: no key provided" []) w3).
  destruct (bool_decide (key = [])).
  - destruct (bool_decide (st = None) && enc); first done.
    cbn beta iota. rewrite open_datastore_same.
    destruct (run h (open_datastore dbPath "blocks") _) as [[[[ds|e]|p] w4] t];
      done.
  - destruct (bool_decide (st = None) && negb enc); first done.
    cbn beta iota. rewrite open_datastore_same.
    destruct (run h (open_datastore _ "blocks") _) as [[[[ds|e]|p] w4] t];
      done.
Qed.
End ProbeFailure.

(** ** Connection strings *)

Lemma length_string_app (a b : string) :
  String.length (a +:+ b) = String.length a + String.length b.
Proof. induction a as [|c a IH]; simpl; [done | by rewrite IH]. Qed.

Lemma string_app_inv_tail (a b s : string) : a +:+ s = b +:+ s -> a = b.
Proof.
  revert b. induction a as [|c a IH]; intros [|d b] E.
  - done.
  - apply (f_equal String.length) in E.
    rewrite !length_string_app in E. simpl in E. lia.
  - apply (f_equal String.length) in E.
    rewrite !length_string_app in E. simpl in E. lia.
  - simpl in E. injection E as -> E. f_equal. by apply IH.
Qed.

Lemma string_app_inv_head (s a b : string) : s +:+ a = s +:+ b -> a = b.
Proof. induction s as [|c s IH]; simpl; [done | intros [= E]; by apply IH]. Qed.

Lemma fmt_d_inj (a b : Z) : fmt_d a = fmt_d b -> a = b.
Proof.
  unfold fmt_d. intros E.
  assert (forall z, NilZero.int_of_string (NilZero.string_of_int (Z.to_int z))
                    = Some (Z.to_int z)) as P.
  { intros z. apply NilZero.isi; destruct z as [|p|p]; simpl; try done;
      intros [= E']; by apply (DecimalPos.Unsigned.to_uint_nonnil p). }
  apply DecimalZ.to_int_inj.
  pose proof (P a) as Pa. rewrite E, P in Pa. by injection Pa.
Qed.

Lemma memdb_url_inj (a b : Z) : memdb_url a = memdb_url b -> a = b.
Proof.
  unfold memdb_url. intros E.
  apply string_app_inv_head, string_app_inv_tail in E. by apply fmt_d_inj.
Qed.

Lemma encrypted_url_longer (path hexKey : string) :
  String.length path < String.length (encrypted_url path hexKey).
Proof. unfold encrypted_url. rewrite !length_string_app. simpl. lia. Qed.

Section Gorm.
Context `{GoLib} {W : Type} (h : forall X : Type, osE X -> W -> X * W).

(** The one connection string [GetGormDBForPath] opens. *)
Lemma GetGormDBForPath_conn (dbPath : string) (key : list byte) (logger : Logger)
    (w : W) :
  gorm_opened (run h (GetGormDBForPath dbPath key logger) w).2 =
  [if bool_decide (dbPath = InMemoryDir) then memdb_url (h _ UnixNano w).1
   else if bool_decide (key = []) then dbPath
   else encrypted_url dbPath (EncodeToString key)].
Proof.
  unfold GetGormDBForPath. rewrite run_bind.
  destruct (bool_decide (dbPath = InMemoryDir)).
  - rewrite run_call. destruct (h _ UnixNano w) as [nanos w1].
    cbn [run fst]. cbn beta iota. rewrite run_call.
    by destruct (h _ (GormOpen _ _) w1) as [[db [err|]] w2].
  - destruct key as [|b key]; simpl;
      by destruct (h _ (GormOpen _ _) w) as [[db [err|]] w2].
Qed.

(** With the sentinel, the wrappers are [GetGormDBForPath] itself. *)
Lemma GetMessengerDBForPath_in_memory (key : list byte) (logger : Logger) :
  GetMessengerDBForPath InMemoryDir key logger
  = GetGormDBForPath InMemoryDir key logger.
Proof. reflexivity. Qed.

Lemma GetReplicationDBForPath_in_memory (logger : Logger) :
  GetReplicationDBForPath InMemoryDir logger
  = GetGormDBForPath InMemoryDir [] logger.
Proof. reflexivity. Qed.

(** C8 (as amended).  Two in-memory opens, from any two states of the
    environment: each opens the URL made from the reading of the clock
    it takes, and the two URLs differ exactly when the two readings
    differ. *)
Theorem in_memory_urls_differ_iff_clock_differs (key1 key2 : list byte)
    (logger1 logger2 : Logger) (w w' : W) :
  let r1 := run h (GetGormDBForPath InMemoryDir key1 logger1) w in
  let r2 := run h (GetGormDBForPath InMemoryDir key2 logger2) w' in
  gorm_opened r1.2 = [memdb_url (h _ UnixNano w).1]
  /\ gorm_opened r2.2 = [memdb_url (h _ UnixNano w').1]
  /\ (gorm_opened r1.2 <> gorm_opened r2.2
      <-> (h _ UnixNano w).1 <> (h _ UnixNano w').1).
Proof.
  cbn zeta. rewrite !GetGormDBForPath_conn.
  rewrite !bool_decide_eq_true_2 by done.
  split; [done|]. split; [done|]. split.
  - intros Hne E. apply Hne. by rewrite E.
  - intros Hne E. apply Hne, memdb_url_inj. congruence.
Qed.

(** C10.  [GetReplicationDBForPath] is [GetGormDBForPath] with no key, on
    the directory joined with the replication file name (or on the
    sentinel).  It opens one connection string: that path itself, or
    the in-memory URL when the path is the sentinel; in neither case the
    path followed by key parameters, for any key. *)
Theorem replication_db_has_no_key (dir : string) (logger : Logger) (w : W) :
  let dbPath := if bool_decide (dir <> InMemoryDir)
                then path_Join dir ReplicationDatabaseFilename else dir in
  let conn := if bool_decide (dbPath = InMemoryDir)
              then memdb_url (h _ UnixNano w).1 else dbPath in
  GetReplicationDBForPath dir logger = GetGormDBForPath dbPath [] logger
  /\ gorm_opened (run h (GetReplicationDBForPath dir logger) w).2 = [conn]
  /\ forall hexKey, conn <> encrypted_url dbPath hexKey.
Proof.
  intros dbPath conn. split; [done|]. split.
  - unfold GetReplicationDBForPath. cbn zeta. fold dbPath.
    rewrite GetGormDBForPath_conn. subst conn.
    destruct (bool_decide (dbPath = InMemoryDir)); [done|].
    by rewrite bool_decide_eq_true_2.
  - intros hexKey E. subst conn.
    destruct (bool_decide (dbPath = InMemoryDir)) eqn:Hp.
    + apply bool_decide_eq_true_1 in Hp. rewrite Hp in E. discriminate E.
    + pose proof (encrypted_url_longer dbPath hexKey) as L.
      rewrite <- E in L. lia.
Qed.
End Gorm.

Lemma datastore_encryption_consistency_witness :
  (fails_with ErrInvalidInput DatastoreExamples.no_key_on_encrypted.1.1
   <-> (db_encrypted = db_encrypted /\ @nil byte = []) \/
       (db_encrypted = db_plaintext /\ @nil byte <> []))
  /\ ((db_encrypted = db_encrypted /\ @nil byte = []) \/
      (db_encrypted = db_plaintext /\ @nil byte <> []) ->
      opened DatastoreExamples.no_key_on_encrypted.2 = [])
  /\ (~ ((db_encrypted = db_encrypted /\ @nil byte = []) \/
         (db_encrypted = db_plaintext /\ @nil byte <> [])) ->
      opened DatastoreExamples.no_key_on_encrypted.2
      = [("sqlite3",
          if decide (@nil byte = []) then "store/datastore.sqlite"
          else encrypted_url "store/datastore.sqlite" (EncodeToString []))]).
Proof.
  apply (datastore_encryption_consistency (H := Sim.lib) Sim.handler "store" []
           DatastoreExamples.logger
           DatastoreExamples.encrypted DatastoreExamples.encrypted
           DatastoreExamples.encrypted DatastoreExamples.encrypted
           None (true, None) db_encrypted).
  - discriminate.
  - vm_compute. reflexivity.
  - vm_compute. reflexivity.
  - vm_compute. reflexivity.
  - reflexivity.
Defined.

(** The six combinations of file state and key, on the reference
    environment. *)
Example datastore_combinations :
  DatastoreExamples.open_root [] DatastoreExamples.absent = DatastoreExamples.ds
  /\ DatastoreExamples.open_root DatastoreExamples.key DatastoreExamples.absent
     = DatastoreExamples.ds
  /\ DatastoreExamples.open_root [] DatastoreExamples.plaintext = DatastoreExamples.ds
  /\ DatastoreExamples.open_root DatastoreExamples.key DatastoreExamples.plaintext
     = Returned (Err (Wrap ErrInvalidInput
         (New "storage key provided while datastore db is NOT encrypted")))
  /\ DatastoreExamples.open_root [] DatastoreExamples.encrypted
     = Returned (Err (Wrap ErrInvalidInput (New "missing storage key, db is encrypted")))
  /\ DatastoreExamples.open_root DatastoreExamples.key DatastoreExamples.encrypted
     = DatastoreExamples.ds.
Proof. vm_compute. repeat split. Qed.

(** A database file on which the probe fails is handled as a plaintext
    one. *)
Example datastore_probe_failure :
  (Sim.handler _ (IsEncrypted "store/datastore.sqlite") DatastoreExamples.stub).1
  = (false, Some Sim.EIO)
  /\ DatastoreExamples.open_root [] DatastoreExamples.stub = DatastoreExamples.ds
  /\ DatastoreExamples.open_root DatastoreExamples.key DatastoreExamples.stub
     = DatastoreExamples.open_root DatastoreExamples.key DatastoreExamples.plaintext.
Proof. vm_compute. repeat split. Qed.

(** C8 (as stated) fails: two in-memory opens in a row, on a clock that
    gives the same reading twice, open the same URL. *)
Lemma in_memory_urls_can_collide :
  gorm_opened DatastoreExamples.first_open.2
  = ["file:memdb1700000000000000000?mode=memory&cache=shared"]
  /\ ~ gorm_opened DatastoreExamples.first_open.2
        <> gorm_opened DatastoreExamples.second_open.2.
Proof.
  split.
  - vm_compute. reflexivity.
  - intros Hne. apply Hne. vm_compute. reflexivity.
Qed.

(** The replication database of a directory, on the reference
    environment. *)
Example replication_db_example :
  gorm_opened (run Sim.handler (GetReplicationDBForPath "store" DatastoreExamples.logger)
                   DatastoreExamples.absent).2
  = ["store/replication.sqlite"].
Proof. vm_compute. reflexivity. Qed.

(** ** More on the device push key *)

Section PushKeyMore.
Context `{GoLib} {W : Type} (h : forall X : Type, osE X -> W -> X * W).

Lemma split_keys_cases (contents : list byte) :
  (KeySize * 2 <= length contents /\
   split_keys contents = Ret (take KeySize contents, take KeySize (drop KeySize contents)))
  \/ (length contents < KeySize * 2 /\ exists p, split_keys contents = Panic p).
Proof.
  destruct (decide (KeySize * 2 <= length contents)) as [Hl|Hl].
  - left. split; [done|]. by apply split_keys_long.
  - right. split; [lia|]. apply split_keys_short. lia.
Qed.

Lemma halves_of_take (contents : list byte) :
  KeySize * 2 <= length contents ->
  take KeySize contents ++ take KeySize (drop KeySize contents)
  = take (KeySize * 2) contents
  /\ length (take KeySize contents) = KeySize
  /\ length (take KeySize (drop KeySize contents)) = KeySize.
Proof.
  intros Hl. split; [|split].
  - rewrite take_take_drop. reflexivity.
  - rewrite length_take. lia.
  - rewrite length_take, length_drop. lia.
Qed.

(** Every run of the function takes one of the eight paths. *)
Lemma GetDevicePushKeyForPath_shape (filePath : string) (create : bool) (w : W) :
  let r := run h (GetDevicePushKeyForPath filePath create) w in
  push_key_shape filePath create (h _ (ReadFile filePath) w).1 r.1.1 r.2.
Proof.
  cbn zeta. unfold GetDevicePushKeyForPath. rewrite run_call.
  destruct (h _ (ReadFile filePath) w) as [[contents [err|]] w1]; cbn [fst snd].
  - destruct (IsNotExist (Some err) && create) eqn:Hc.
    + apply andb_true_iff in Hc as [Hn ->].
      rewrite run_call.
      destruct (h _ (MkdirAll _ _) w1) as [[e1|] w2]; [by apply shape_no_directory|].
      rewrite run_call.
      destruct (h _ GenerateKey w2) as [[[pk sk]|e2] w3]; [|by apply shape_no_key].
      rewrite join_keys_ok, ret_bind, run_call.
      destruct (h _ (Create _) w3) as [[e3|] w4]; [by apply shape_not_created|].
      rewrite run_call.
      destruct (h _ (WriteFile _ _ _) w4) as [[e4|] w5]; by constructor.
    + rewrite bool_decide_eq_true_2 by done. by apply shape_unreadable.
  - cbn [IsNotExist andb].
    rewrite bool_decide_eq_false_2 by (intros E; by apply E).
    destruct (split_keys_cases contents) as [[Hl ->]|[Hl [p ->]]]; by constructor.
Qed.

(** X1.  Creation: when the read reports that the file does not exist,
    [createIfMissing] is true and each step succeeds, the function makes
    the parent directory with mode 0700, draws one key pair, creates the
    file and writes to it, with mode 0600, the public key followed by the
    secret key ([2*KeySize] bytes); it returns that pair. *)
Theorem push_key_created (filePath : string) (contents : list byte) (err : error)
    (pk sk : KeyArr) (w w1 w2 w3 w4 w5 : W) :
  h _ (ReadFile filePath) w = ((contents, Some err), w1) ->
  IsNotExist (Some err) = true ->
  h _ (MkdirAll (path_Dir filePath) mode_0700) w1 = (None, w2) ->
  h _ GenerateKey w2 = (inl (pk, sk), w3) ->
  h _ (Create filePath) w3 = (None, w4) ->
  h _ (WriteFile filePath (key_bytes pk ++ key_bytes sk) mode_0600) w4 = (None, w5) ->
  run h (GetDevicePushKeyForPath filePath true) w =
  (Returned (Ok (key_bytes pk, key_bytes sk)), w5,
   [Ev (ReadFile filePath) (contents, Some err);
    Ev (MkdirAll (path_Dir filePath) mode_0700) None;
    Ev GenerateKey (inl (pk, sk));
    Ev (Create filePath) None;
    Ev (WriteFile filePath (key_bytes pk ++ key_bytes sk) mode_0600) None])
  /\ length (key_bytes pk ++ key_bytes sk) = KeySize * 2.
Proof.
  intros Hr Hn Hm Hg Hc Hw. split.
  - unfold GetDevicePushKeyForPath. rewrite run_call, Hr, Hn. cbn [andb].
    rewrite run_call, Hm, run_call, Hg, join_keys_ok, ret_bind.
    rewrite run_call, Hc, run_call, Hw. done.
  - rewrite length_app, !key_len. lia.
Qed.

(** X2.  Reading: when the file is read and holds at least [2*KeySize]
    bytes, the function returns its first [KeySize] bytes as the public key
    and the next [KeySize] as the secret key, whatever [createIfMissing]
    is; the bytes after those are ignored, and the only call is the read. *)
Theorem push_key_read_splits (filePath : string) (create : bool)
    (contents : list byte) (w w1 : W) :
  h _ (ReadFile filePath) w = ((contents, None), w1) ->
  KeySize * 2 <= length contents ->
  exists pk sk,
    run h (GetDevicePushKeyForPath filePath create) w =
    (Returned (Ok (pk, sk)), w1, [Ev (ReadFile filePath) (contents, None)])
    /\ pk ++ sk = take (KeySize * 2) contents
    /\ length pk = KeySize /\ length sk = KeySize.
Proof.
  intros Hr Hl.
  exists (take KeySize contents), (take KeySize (drop KeySize contents)).
  split; [by apply GetDevicePushKeyForPath_read|]. by apply halves_of_take.
Qed.

(** X3.  The function creates or writes something exactly when
    [createIfMissing] is true and the read reports that the file does not
    exist; a file that exists but cannot be read is never replaced. *)
Theorem push_key_writes_iff_missing (filePath : string) (create : bool) (w : W) :
  written (run h (GetDevicePushKeyForPath filePath create) w).2 <> []
  <-> create = true /\ IsNotExist (h _ (ReadFile filePath) w).1.2 = true.
Proof.
  pose proof (GetDevicePushKeyForPath_shape filePath create w) as Hs. cbn zeta in Hs.
  destruct (run h (GetDevicePushKeyForPath filePath create) w) as [[o w'] t].
  destruct (h _ (ReadFile filePath) w) as [ans w1]. cbn [fst snd] in *.
  inversion Hs as [c Hl|c p Hl|c e Hc|c e e1 Hn Hc|c e e2 Hn Hc|c e pk sk e3 Hn Hc
                  |c e pk sk e4 Hn Hc|c e pk sk Hn Hc]; subst; cbn [written snd].
  - split; [done|]. by intros [_ ?].
  - split; [done|]. by intros [_ ?].
  - split; [done|]. intros [-> Hn]. rewrite Hn in Hc. done.
  - done.
  - done.
  - done.
  - done.
  - done.
Qed.

(** X4.  The function panics exactly when the read succeeds and gives
    fewer than [2*KeySize] bytes. *)
Theorem push_key_panics_iff_short (filePath : string) (create : bool) (w : W) :
  (exists p, (run h (GetDevicePushKeyForPath filePath create) w).1.1 = Panicked p)
  <-> (h _ (ReadFile filePath) w).1.2 = None
      /\ length (h _ (ReadFile filePath) w).1.1 < KeySize * 2.
Proof.
  pose proof (GetDevicePushKeyForPath_shape filePath create w) as Hs. cbn zeta in Hs.
  destruct (run h (GetDevicePushKeyForPath filePath create) w) as [[o w'] t].
  destruct (h _ (ReadFile filePath) w) as [ans w1]. cbn [fst snd] in *.
  inversion Hs; subst; cbn [fst snd].
  - split; [by intros [? [=]]|]. intros [_ ?]. lia.
  - split; [done|]. intros _. by eexists.
  - split; [by intros [? [=]]|]. by intros [? _].
  - split; [by intros [? [=]]|]. by intros [? _].
  - split; [by intros [? [=]]|]. by intros [? _].
  - split; [by intros [? [=]]|]. by intros [? _].
  - split; [by intros [? [=]]|]. by intros [? _].
  - split; [by intros [? [=]]|]. by intros [? _].
Qed.

(** X5.  Whenever the function returns a key pair, each key has [KeySize]
    bytes, and the pair is the one in the file: either the only call was a
    read that gave a file beginning with the two keys, or the last call is
    a successful write of the public key followed by the secret key. *)
Theorem push_key_ok_is_persisted (filePath : string) (create : bool)
    (pk sk : list byte) (w w' : W) (t : list event) :
  run h (GetDevicePushKeyForPath filePath create) w = (Returned (Ok (pk, sk)), w', t) ->
  length pk = KeySize /\ length sk = KeySize
  /\ ((exists contents, t = [Ev (ReadFile filePath) (contents, None)]
                        /\ take (KeySize * 2) contents = pk ++ sk)
      \/ (create = true
          /\ exists t0, t = t0 ++ [Ev (WriteFile filePath (pk ++ sk) mode_0600) None])).
Proof.
  intros E.
  pose proof (GetDevicePushKeyForPath_shape filePath create w) as Hs. cbn zeta in Hs.
  rewrite E in Hs. cbn [fst snd] in Hs.
  destruct (h _ (ReadFile filePath) w) as [ans w1]. cbn [fst snd] in *.
  inversion Hs as [c Hl|c p Hl|c e Hc|c e e1 Hn Hc|c e e2 Hn Hc|c e k1 k2 e3 Hn Hc
                  |c e k1 k2 e4 Hn Hc|c e k1 k2 Hn Hc]; subst.
  - destruct (halves_of_take c Hl) as (Ht & L1 & L2).
    split; [done|]. split; [done|]. left. by exists c.
  - split; [apply key_len|]. split; [apply key_len|]. right. split; [done|].
    by eexists [_; _; _; _].
Qed.

(** X6.  Whenever the function returns an error, it is one of three: the
    error of an unreadable or absent file, with nothing created; a key
    generation error, with only the directory made; or an internal error
    wrapping the error of the last call made, which is the making of the
    directory, the creation of the file or the write. *)
Theorem push_key_errors (filePath : string) (create : bool) (e : error)
    (w w' : W) (t : list event) :
  run h (GetDevicePushKeyForPath filePath create) w = (Returned (Err e), w', t) ->
  (e = Wrap ErrPushUnableToDecrypt (New "unable to get device push key")
   /\ written t = [])
  \/ (code_of e = Some ErrCryptoKeyGeneration /\ create = true
      /\ written t = [path_Dir filePath])
  \/ (create = true
      /\ exists t0 (c : osE (option error)) inner,
           e = Wrap ErrInternal inner
           /\ t = t0 ++ [Ev c (Some inner)]
           /\ written [Ev c (Some inner)] <> []).
Proof.
  intros E.
  pose proof (GetDevicePushKeyForPath_shape filePath create w) as Hs. cbn zeta in Hs.
  rewrite E in Hs. cbn [fst snd] in Hs.
  destruct (h _ (ReadFile filePath) w) as [ans w1]. cbn [fst snd] in *.
  inversion Hs as [c Hl|c p Hl|c e0 Hc|c e0 e1 Hn Hc|c e0 e2 Hn Hc|c e0 k1 k2 e3 Hn Hc
                  |c e0 k1 k2 e4 Hn Hc|c e0 k1 k2 Hn Hc]; subst.
  - by left.
  - right. right. split; [done|].
    by eexists [_], (MkdirAll _ _), _.
  - right. by left.
  - right. right. split; [done|].
    by eexists [_; _; _], (Create _), _.
  - right. right. split; [done|].
    by eexists [_; _; _; _], (WriteFile _ _ _), _.
Qed.

End PushKeyMore.

(** ** More on account metadata *)

Lemma read_files_app (t1 t2 : list event) :
  read_files (t1 ++ t2) = read_files t1 ++ read_files t2.
Proof.
  induction t1 as [|[X e x] t1 IH]; [done|].
  destruct e; simpl; by rewrite ?IH.
Qed.

Section AccountsMore.
Context `{GoLib} {W : Type} (h : forall X : Type, osE X -> W -> X * W).

(** The run of a lookup, by the answer to its read. *)
Lemma GetAccountMetaForName_run (rootDir accountID : string)
    (logger : option Logger) (w : W) :
  let metafileName := filepath_Join [rootDir; accountID; AccountMetafileName] in
  let read := ReadFile metafileName in
  let warn err := Warn (default NopLogger logger) "unable to read account metadata"
                       [zap_Error err; zap_String "account-id" accountID] in
  run h (GetAccountMetaForName rootDir accountID logger) w =
  match h _ read w with
  | ((metaBytes, Some err), w1) =>
      if IsNotExist (Some err) then
        (Returned (Err (Code ErrBertyAccountDataNotFound)), w1,
         [Ev read (metaBytes, Some err)])
      else
        (Returned (Err (Wrap ErrBertyAccountFSError
                          (Errorf_w "unable to read account metadata" err))),
         (h _ (warn err) w1).2,
         [Ev read (metaBytes, Some err); Ev (warn err) (h _ (warn err) w1).1])
  | ((metaBytes, None), w1) =>
      (Returned
         match proto_Unmarshal metaBytes with
         | Err err =>
             Err (Wrap ErrDeserialization
                    (Errorf_w "unable to unmarshall account metadata" err))
         | Ok meta => Ok (mkAccountMetadata accountID (Error meta) (am_rest meta))
         end, w1, [Ev read (metaBytes, None)])
  end.
Proof.
  cbn zeta. unfold GetAccountMetaForName. cbn zeta. rewrite run_call.
  destruct (h _ (ReadFile _) w) as [[metaBytes [err|]] w1].
  - destruct (IsNotExist (Some err)); [done|].
    rewrite run_call. by destruct (h _ (Warn _ _ _) w1) as [[] w2].
  - cbn [IsNotExist]. by destruct (proto_Unmarshal metaBytes).
Qed.

(** X7.  The error of a lookup tells its cause: the bare code
    [ErrBertyAccountDataNotFound] exactly when the read reports that the
    file does not exist; [ErrBertyAccountFSError] exactly when the read
    fails otherwise; [ErrDeserialization] exactly when the file is read
    and does not unmarshal. *)
Theorem account_meta_error_tells_cause (rootDir accountID : string)
    (logger : option Logger) (w : W) :
  let answer := (h _ (ReadFile (filepath_Join [rootDir; accountID; AccountMetafileName]))
                   w).1 in
  let o := (run h (GetAccountMetaForName rootDir accountID logger) w).1.1 in
  (o = Returned (Err (Code ErrBertyAccountDataNotFound))
   <-> IsNotExist answer.2 = true)
  /\ (fails_with ErrBertyAccountFSError o
      <-> answer.2 <> None /\ IsNotExist answer.2 = false)
  /\ (fails_with ErrDeserialization o
      <-> answer.2 = None /\ exists err, proto_Unmarshal answer.1 = Err err).
Proof.
  cbn zeta. rewrite GetAccountMetaForName_run.
  destruct (h _ (ReadFile _) w) as [[metaBytes [err|]] w1]; cbn [fst snd].
  - destruct (IsNotExist (Some err)) eqn:Hn; cbn [fst snd].
    + split; [done|]. split.
      * split; [by intros (e & [= <-] & [=])|by intros [_ ?]].
      * split; [by intros (e & [= <-] & [=])|by intros [? _]].
    + split; [done|]. split.
      * split; [done|]. intros _. by eexists.
      * split; [by intros (e & [= <-] & [=])|by intros [? _]].
  - split; [|split].
    + destruct (proto_Unmarshal metaBytes) as [m|e0]; by split.
    + split; [|by intros [? _]].
      destruct (proto_Unmarshal metaBytes) as [m|e0]; by intros (e & [= <-] & [=]).
    + destruct (proto_Unmarshal metaBytes) as [m|e0].
      * split; [by intros (e & [=] & _)|by intros [_ [? [=]]]].
      * split; [by eauto|]. intros _. by eexists.
Qed.

(** The calls of a lookup. *)
Lemma GetAccountMetaForName_calls (rootDir accountID : string)
    (logger : option Logger) (w : W) :
  let metafileName := filepath_Join [rootDir; accountID; AccountMetafileName] in
  let err := (h _ (ReadFile metafileName) w).1.2 in
  let tr := (run h (GetAccountMetaForName rootDir accountID logger) w).2 in
  read_files tr = [metafileName]
  /\ forallb looks_only tr = true
  /\ warned tr = if bool_decide (err <> None) && negb (IsNotExist err)
                 then ["unable to read account metadata"] else [].
Proof.
  cbn zeta. rewrite GetAccountMetaForName_run.
  destruct (h _ (ReadFile _) w) as [[metaBytes [err|]] w1]; cbn [fst snd].
  - rewrite bool_decide_eq_true_2 by done.
    by destruct (IsNotExist (Some err)).
  - by rewrite bool_decide_eq_false_2 by (intros E; by apply E).
Qed.

(** X8.  A lookup reads one file, [rootDir/accountID/account_meta], and
    changes nothing; it logs one warning exactly when the read fails for
    another reason than the absence of the file, and otherwise none (a
    malformed file is not logged). *)
Theorem account_meta_reads_one_file (rootDir accountID : string)
    (logger : option Logger) (w : W) :
  let metafileName := filepath_Join [rootDir; accountID; AccountMetafileName] in
  let err := (h _ (ReadFile metafileName) w).1.2 in
  let tr := (run h (GetAccountMetaForName rootDir accountID logger) w).2 in
  read_files tr = [metafileName]
  /\ forallb looks_only tr = true
  /\ warned tr = if bool_decide (err <> None) && negb (IsNotExist err)
                 then ["unable to read account metadata"] else [].
Proof. apply GetAccountMetaForName_calls. Qed.

(** X9.  The metadata a lookup returns is what the file unmarshals to,
    with only the [AccountID] replaced: the other fields are kept. *)
Theorem account_meta_keeps_other_fields (rootDir accountID : string)
    (logger : option Logger) (w w' : W) (meta : AccountMetadata Rest)
    (t : list event) :
  run h (GetAccountMetaForName rootDir accountID logger) w = (Returned (Ok meta), w', t) ->
  exists metaBytes stored,
    (h _ (ReadFile (filepath_Join [rootDir; accountID; AccountMetafileName])) w).1
    = (metaBytes, None)
    /\ proto_Unmarshal metaBytes = Ok stored
    /\ Error meta = Error stored
    /\ am_rest meta = am_rest stored.
Proof.
  rewrite GetAccountMetaForName_run.
  destruct (h _ (ReadFile _) w) as [[metaBytes [err|]] w1]; cbn [fst snd].
  - by destruct (IsNotExist (Some err)).
  - destruct (proto_Unmarshal metaBytes) as [m|e] eqn:Hu; [|done].
    intros [= <- _ _]. by exists metaBytes, m.
Qed.

(** The trace of the loop of [ListAccounts]. *)
Lemma list_loop_trace (rootDir : string) (logger : Logger) (items : list FileInfo) :
  forall (acc : list (AccountMetadata Rest)) (w : W),
  let r := run h (for_each items (fun subitem accounts =>
          if negb (fi_IsDir subitem) then Ret accounts
          else
            r ← GetAccountMetaForName rootDir (fi_Name subitem) (Some logger) ;
            match r with
            | Err err =>
                Ret (accounts ++
                     [mkAccountMetadata (fi_Name subitem) (error_Error err) rest_zero])
            | Ok account => Ret (accounts ++ [account])
            end) acc) w in
  (exists accounts, r.1.1 = Returned accounts)
  /\ forallb looks_only r.2 = true
  /\ read_files r.2
     = map (fun i => filepath_Join [rootDir; fi_Name i; AccountMetafileName])
           (filter (fun i => fi_IsDir i = true) items).
Proof.
  induction items as [|item items IH]; intros acc w; cbn zeta.
  - split; [by eexists|done].
  - cbn [for_each]. rewrite run_bind.
    destruct (fi_IsDir item) eqn:Hd; cbn [negb].
    + rewrite filter_cons_True by done.
      rewrite run_bind.
      pose proof (GetAccountMetaForName_calls rootDir (fi_Name item) (Some logger) w)
        as (Hrf & Hlo & _).
      destruct (GetAccountMetaForName_returns h rootDir (fi_Name item) (Some logger) w)
        as (r & w1 & t1 & Hr).
      rewrite Hr in *. cbn [fst snd] in Hrf, Hlo.
      set (acc' := match r with
                   | Ok account => acc ++ [account]
                   | Err err => acc ++ [mkAccountMetadata (fi_Name item)
                                          (error_Error err) rest_zero]
                   end).
      assert (run h match r with
                    | Ok account => Ret (acc ++ [account])
                    | Err err => Ret (acc ++ [mkAccountMetadata (fi_Name item)
                                                (error_Error err) rest_zero])
                    end w1 = (Returned acc', w1, [])) as -> by by destruct r.
      cbn beta iota.
      specialize (IH acc' w1). cbn zeta in IH.
      destruct (run h (for_each items _ acc') w1) as [[o w2] t2].
      cbn [fst snd] in *. destruct IH as ([accs ->] & Hlo2 & Hrf2).
      split; [by eexists|]. rewrite app_nil_r.
      split.
      * rewrite forallb_app. by rewrite Hlo, Hlo2.
      * rewrite read_files_app, Hrf, Hrf2. done.
    + rewrite filter_cons_False by (rewrite Hd; done).
      rewrite run_ret. cbn beta iota.
      specialize (IH acc w). cbn zeta in IH.
      destruct (run h (for_each items _ acc) w) as [[o w2] t2].
      cbn [fst snd] in *. destruct IH as ([accs ->] & Hlo2 & Hrf2).
      split; [by eexists|]. done.
Qed.

(** X10.  When [os.Stat] reports that the root does not exist,
    [ListAccounts] returns an empty list and no error, and makes no other
    call: the root is not created and not listed. *)
Theorem list_accounts_missing_root (rootDir : string) (logger : option Logger)
    (err : error) (w w1 : W) :
  h _ (Stat rootDir) w = (Some err, w1) ->
  IsNotExist (Some err) = true ->
  run h (ListAccounts rootDir logger) w =
  (Returned (Ok []), w1, [Ev (Stat rootDir) (Some err)]).
Proof.
  intros Hs Hn. unfold ListAccounts. cbn zeta. by rewrite run_call, Hs, Hn.
Qed.

(** X11.  [ListAccounts] fails only on the root itself: an error it
    returns is [ErrBertyAccountFSError] wrapping the error of [os.Stat] or
    of [ioutil.ReadDir] on the root, and then no account was looked up. *)
Theorem list_accounts_fails_only_on_root (rootDir : string)
    (logger : option Logger) (e : error) (w w' : W) (t : list event) :
  run h (ListAccounts rootDir logger) w = (Returned (Err e), w', t) ->
  exists inner,
    e = Wrap ErrBertyAccountFSError inner
    /\ (t = [Ev (Stat rootDir) (Some inner)]
        \/ exists subitems,
             t = [Ev (Stat rootDir) None; Ev (ReadDir rootDir) (subitems, Some inner)]).
Proof.
  unfold ListAccounts. cbn zeta. rewrite run_call.
  destruct (h _ (Stat rootDir) w) as [[serr|] w1].
  - destruct (IsNotExist (Some serr)); [done|].
    intros [= <- _ <-]. exists serr. by split; [|left].
  - cbn [IsNotExist]. rewrite run_call.
    destruct (h _ (ReadDir rootDir) w1) as [[subitems [rerr|]] w2].
    + intros [= <- _ <-]. exists rerr. split; [done|]. right. by exists subitems.
    + rewrite run_bind.
      pose proof (list_loop_trace rootDir (default NopLogger logger) subitems [] w2)
        as ([accs Ho] & _).
      cbn zeta in Ho.
      destruct (run h (for_each subitems _ []) w2) as [[o w3] t3].
      cbn [fst] in Ho. subst o. done.
Qed.

(** X12.  When the root is listed, the files [ListAccounts] reads are the
    metadata files of its subdirectories, one each, in the order of the
    listing; for an entry that is not a directory nothing is read. *)
Theorem list_accounts_reads_metafiles (rootDir : string) (logger : option Logger)
    (w w1 w2 : W) (subitems : list FileInfo) :
  h _ (Stat rootDir) w = (None, w1) ->
  h _ (ReadDir rootDir) w1 = ((subitems, None), w2) ->
  read_files (run h (ListAccounts rootDir logger) w).2
  = map (fun i => filepath_Join [rootDir; fi_Name i; AccountMetafileName])
        (filter (fun i => fi_IsDir i = true) subitems).
Proof.
  intros Hs Hd. unfold ListAccounts. cbn zeta.
  rewrite run_call, Hs. cbn [IsNotExist]. rewrite run_call, Hd, run_bind.
  pose proof (list_loop_trace rootDir (default NopLogger logger) subitems [] w2)
    as ([accs Ho] & _ & Hrf).
  cbn zeta in Ho, Hrf.
  destruct (run h (for_each subitems _ []) w2) as [[o w3] t3].
  cbn [fst snd] in *. subst o. cbn. by rewrite app_nil_r.
Qed.

(** X13.  [ListAccounts] always returns, and only looks: every call it
    makes is an [os.Stat], an [ioutil.ReadDir], a read of a file or a
    warning to the logger; it never creates, writes or opens anything. *)
Theorem list_accounts_only_looks (rootDir : string) (logger : option Logger) (w : W) :
  let r := run h (ListAccounts rootDir logger) w in
  (exists res, r.1.1 = Returned res) /\ forallb looks_only r.2 = true.
Proof.
  cbn zeta. unfold ListAccounts. cbn zeta. rewrite run_call.
  destruct (h _ (Stat rootDir) w) as [[serr|] w1].
  - destruct (IsNotExist (Some serr)); (split; [by eexists|done]).
  - cbn [IsNotExist]. rewrite run_call.
    destruct (h _ (ReadDir rootDir) w1) as [[subitems [rerr|]] w2].
    + split; [by eexists|done].
    + rewrite run_bind.
      pose proof (list_loop_trace rootDir (default NopLogger logger) subitems [] w2)
        as ([accs Ho] & Hlo & _).
      cbn zeta in Ho, Hlo.
      destruct (run h (for_each subitems _ []) w2) as [[o w3] t3].
      cbn [fst snd] in *. subst o. cbn. split; [by eexists|].
      by rewrite forallb_app, Hlo.
Qed.

End AccountsMore.

(** ** More on the storage key *)

Section StorageKeyMore.
Context {W : Type} (h : forall X : Type, osE X -> W -> X * W).

(** X14.  When the keystore has no storage key and the random source
    fails, the function returns [ErrCryptoKeyGeneration] wrapping the
    error of the random source (the error of the [Get] is dropped), and
    nothing is put into the keystore. *)
Theorem storage_key_random_failure (ks : Keystore) (key0 keyData : list byte)
    (getErr randErr : error) (w w1 w2 : W) :
  h _ (KsGet ks StorageKeyName) w = ((key0, Some getErr), w1) ->
  h _ (CrandRead KeySize) w1 = ((keyData, Some randErr), w2) ->
  run h (GetOrCreateStorageKey ks) w =
  (Returned (Err (Wrap ErrCryptoKeyGeneration randErr)), w2,
   [Ev (KsGet ks StorageKeyName) (key0, Some getErr);
    Ev (CrandRead KeySize) (keyData, Some randErr)])
  /\ puts (run h (GetOrCreateStorageKey ks) w).2 = [].
Proof.
  intros Hg Hr.
  assert (run h (GetOrCreateStorageKey ks) w =
          (Returned (Err (Wrap ErrCryptoKeyGeneration randErr)), w2,
           [Ev (KsGet ks StorageKeyName) (key0, Some getErr);
            Ev (CrandRead KeySize) (keyData, Some randErr)])) as E.
  { unfold GetOrCreateStorageKey. by rewrite run_call, Hg, run_call, Hr. }
  by rewrite E.
Qed.

(** X15.  On a keystore whose successful [Get] can be repeated: once the
    function has returned a key, the next call returns the same key with
    a single [Get]; it draws no random bytes and puts nothing. *)
Theorem storage_key_idempotent (ks : Keystore) (key : list byte)
    (w w1 : W) (t1 : list event) :
  get_stable h ->
  run h (GetOrCreateStorageKey ks) w = (Returned (Ok key), w1, t1) ->
  run h (GetOrCreateStorageKey ks) w1 =
  (Returned (Ok key), w1, [Ev (KsGet ks StorageKeyName) (key, None)]).
Proof.
  intros Hst Hrun.
  assert (h _ (KsGet ks StorageKeyName) w1 = ((key, None), w1)) as Hg.
  { unfold GetOrCreateStorageKey in Hrun. rewrite run_call in Hrun.
    destruct (h _ (KsGet ks StorageKeyName) w) as [[k0 [e0|]] w0] eqn:Hg0.
    - rewrite run_call in Hrun.
      destruct (h _ (CrandRead KeySize) w0) as [[kd [re|]] w2]; [done|].
      rewrite run_call in Hrun.
      destruct (h _ (KsPut ks StorageKeyName kd) w2) as [[pe|] w3]; [done|].
      rewrite run_call in Hrun.
      destruct (h _ (KsGet ks StorageKeyName) w3) as [[k1 [ge|]] w4] eqn:Hg1; [done|].
      injection Hrun as <- <- _. by apply (Hst _ _ _ _ _ Hg1).
    - injection Hrun as <- <- _. by apply (Hst _ _ _ _ _ Hg0). }
  unfold GetOrCreateStorageKey. by rewrite run_call, Hg.
Qed.
End StorageKeyMore.

(** ** The datastore directory *)

Section DatastoreDir.
Context `{GoLib} {W : Type} (h : forall X : Type, osE X -> W -> X * W).

(** The run of [GetDatastoreDir] on a directory that is neither empty
    nor the sentinel. *)
Lemma GetDatastoreDir_run (dir : string) (w : W) :
  dir <> "" -> dir <> InMemoryDir ->
  run h (GetDatastoreDir dir) w =
  match h _ (Stat dir) w with
  | (Some err, w1) =>
      if IsNotExist (Some err) then
        match h _ (MkdirAll dir mode_0700) w1 with
        | (Some err', w2) =>
            (Returned (Err (Wrap TODO err')), w2,
             [Ev (Stat dir) (Some err); Ev (MkdirAll dir mode_0700) (Some err')])
        | (None, w2) =>
            (Returned (Ok dir), w2,
             [Ev (Stat dir) (Some err); Ev (MkdirAll dir mode_0700) None])
        end
      else (Returned (Err (Wrap TODO err)), w1, [Ev (Stat dir) (Some err)])
  | (None, w1) => (Returned (Ok dir), w1, [Ev (Stat dir) None])
  end.
Proof.
  intros H1 H2. unfold GetDatastoreDir.
  rewrite !decide_False by done. rewrite run_call.
  destruct (h _ (Stat dir) w) as [[err|] w1]; [|done].
  destruct (IsNotExist (Some err)); [|done].
  rewrite run_call. by destruct (h _ (MkdirAll _ _) w1) as [[err'|] w2].
Qed.

(** X16.  [GetDatastoreDir] never panics; a directory it returns is the
    one it was given, and is not the empty string; an error it returns
    carries the code [TODO]. *)
Theorem datastore_dir_result (dir : string) (w : W) :
  match (run h (GetDatastoreDir dir) w).1.1 with
  | Returned (Ok d) => d = dir /\ dir <> ""
  | Returned (Err e) => code_of e = Some TODO
  | Panicked _ => False
  end.
Proof.
  destruct (decide (dir = "")) as [->|H1]; [done|].
  destruct (decide (dir = InMemoryDir)) as [->|H2]; [done|].
  rewrite GetDatastoreDir_run by done.
  destruct (h _ (Stat dir) w) as [[err|] w1]; [|done].
  destruct (IsNotExist (Some err)); [|done].
  by destruct (h _ (MkdirAll _ _) w1) as [[err'|] w2].
Qed.

(** X17.  For the empty string and for the sentinel [GetDatastoreDir]
    makes no call at all; otherwise it asks [os.Stat] once, and makes the
    directory exactly when that reports that it does not exist (a
    directory that cannot be examined is left alone). *)
Theorem datastore_dir_creates_iff_missing (dir : string) (w : W) :
  let tr := (run h (GetDatastoreDir dir) w).2 in
  if bool_decide (dir = "" \/ dir = InMemoryDir) then tr = []
  else exists t, tr = Ev (Stat dir) (h _ (Stat dir) w).1 :: t
       /\ written tr = if IsNotExist (h _ (Stat dir) w).1 then [dir] else [].
Proof.
  cbn zeta.
  destruct (decide (dir = "")) as [->|H1]; [done|].
  destruct (decide (dir = InMemoryDir)) as [->|H2]; [done|].
  rewrite bool_decide_eq_false_2 by (by intros [?|?]).
  rewrite GetDatastoreDir_run by done.
  destruct (h _ (Stat dir) w) as [[err|] w1]; cbn [fst]; [|by eexists].
  destruct (IsNotExist (Some err)); [|by eexists].
  destruct (h _ (MkdirAll _ _) w1) as [[err'|] w2]; by eexists.
Qed.
End DatastoreDir.

(** ** More on the root datastore *)

Lemma opened_app (t1 t2 : list event) : opened (t1 ++ t2) = opened t1 ++ opened t2.
Proof.
  induction t1 as [|[X e x] t1 IH]; [done|].
  destruct e; simpl; by rewrite ?IH.
Qed.

Lemma closed_app (t1 t2 : list event) : closed (t1 ++ t2) = closed t1 ++ closed t2.
Proof.
  induction t1 as [|[X e x] t1 IH]; [done|].
  destruct e; simpl; by rewrite ?IH.
Qed.

Lemma warned_app (t1 t2 : list event) : warned (t1 ++ t2) = warned t1 ++ warned t2.
Proof.
  induction t1 as [|[X e x] t1 IH]; [done|].
  destruct e; simpl; by rewrite ?IH.
Qed.

Section RootDatastoreMore.
Context `{GoLib} {W : Type} (h : forall X : Type, osE X -> W -> X * W).

(** Every run of the function takes one of the six paths. *)
Lemma GetRootDatastoreForPath_shape (dir : string) (key : list byte)
    (logger : Logger) (w : W) :
  let r := run h (GetRootDatastoreForPath dir key logger) w in
  root_shape dir key logger r.1.1 r.2.
Proof.
  cbn zeta. unfold GetRootDatastoreForPath. cbn zeta.
  destruct (decide (dir = InMemoryDir)) as [Hd|Hd].
  { rewrite bool_decide_eq_true_2 by done. by constructor. }
  rewrite bool_decide_eq_false_2 by done.
  rewrite run_bind, run_call.
  destruct (h _ (MkdirAll _ _) w) as [[merr|] w1]; [by constructor|].
  rewrite run_call. destruct (h _ (Stat _) w1) as [st w2].
  rewrite run_call. destruct (h _ (IsEncrypted _) w2) as [[b perr] w3].
  rewrite run_bind, db_url_run.
  pose proof (root_refused dir key logger st (b, perr)) as Href.
  pose proof (root_not_opened dir key logger st (b, perr)) as Hno.
  pose proof (root_no_table dir key logger st (b, perr)) as Hnt.
  pose proof (root_opened dir key logger st (b, perr)) as Hok.
  unfold key_refused, root_prelude, root_url in *. cbn [fst snd] in *.
  destruct (bool_decide (key = [])).
  - destruct (bool_decide (st = None) && _); [by apply Href|].
    cbn zeta. cbn beta iota. unfold open_datastore. rewrite run_call.
    destruct (h _ (Warn _ _ _) w3) as [[] w4]. cbn [fst snd].
    destruct (h _ (SqlOpen _ _) w4) as [[db [oerr|]] w5]; [by apply Hno|].
    rewrite run_call.
    destruct (h _ (DbExec _ _) w5) as [[xerr|] w6]; [by apply Hnt|by apply Hok].
  - destruct (bool_decide (st = None) && _); [by apply Href|].
    cbn beta iota. unfold open_datastore. rewrite run_call.
    destruct (h _ (SqlOpen _ _) w3) as [[db [oerr|]] w5]; [by apply Hno|].
    rewrite run_call.
    destruct (h _ (DbExec _ _) w5) as [[xerr|] w6]; [by apply Hnt|by apply Hok].
Qed.


(** X19.  An error of [GetRootDatastoreForPath] is one of four: [TODO]
    wrapping the error of [os.MkdirAll], which is then the only call;
    [ErrInvalidInput], with no database opened; [ErrDBOpen] wrapping the
    error of the [sql.Open], which is then the last call; or [ErrDBWrite]
    wrapping the error of the table creation, which is then the last
    call, the database opened just before being left unclosed. *)
Theorem root_datastore_errors (dir : string) (key : list byte) (logger : Logger)
    (e : error) (w w' : W) (t : list event) :
  run h (GetRootDatastoreForPath dir key logger) w = (Returned (Err e), w', t) ->
  (exists inner, e = Wrap TODO inner /\ t = [Ev (MkdirAll dir ModePerm) (Some inner)])
  \/ (code_of e = Some ErrInvalidInput /\ opened t = [])
  \/ (exists inner t0 url db,
        e = Wrap ErrDBOpen inner
        /\ t = t0 ++ [Ev (SqlOpen "sqlite3" url) (db, Some inner)])
  \/ (exists inner t0 url db,
        e = Wrap ErrDBWrite inner
        /\ t = t0 ++ [Ev (SqlOpen "sqlite3" url) (db, None);
                      Ev (DbExec db (create_table_stmt "blocks")) (Some inner)]
        /\ closed t = []).
Proof.
  intros E.
  pose proof (GetRootDatastoreForPath_shape dir key logger w) as Hs.
  cbn zeta in Hs. rewrite E in Hs. cbn [fst snd] in Hs.
  inversion Hs as [Hd|err Hd|st probe msg Hd Hk|st probe db err Hd Hk
                  |st probe db err Hd Hk|st probe db Hd Hk]; subst.
  - left. by eexists.
  - right. by left.
  - right. right. left. by eexists _, _, _, _.
  - right. right. right. eexists _, _, _, _. split; [done|]. split; [done|].
    rewrite closed_app. unfold root_prelude. rewrite closed_app.
    by destruct (bool_decide (key = [])).
Qed.

(** X20.  The warning that encryption is disabled is logged exactly when
    the key is empty and the function goes on to open a database; it is
    not logged for the sentinel, nor when the open is refused. *)
Theorem root_datastore_warns_iff_plain_open (dir : string) (key : list byte)
    (logger : Logger) (w : W) :
  let r := run h (GetRootDatastoreForPath dir key logger) w in
  warned r.2 =
  if bool_decide (key = []) && bool_decide (opened r.2 <> [])
  then ["root datastore encryption disabled: no key provided"] else [].
Proof.
  pose proof (GetRootDatastoreForPath_shape dir key logger w) as Hs.
  cbn zeta in *.
  destruct (run h (GetRootDatastoreForPath dir key logger) w) as [[o w'] t].
  cbn [fst snd] in *.
  inversion Hs as [Hd|err Hd|st probe msg Hd Hk|st probe db err Hd Hk
                  |st probe db err Hd Hk|st probe db Hd Hk]; subst;
    unfold root_prelude; rewrite ?opened_app, ?warned_app;
    destruct (bool_decide (key = [])); cbn;
    try done; by rewrite bool_decide_eq_true_2.
Qed.
End RootDatastoreMore.

(** ** More on the relational stores *)

Section GormMore.
Context `{GoLib} {W : Type} (h : forall X : Type, osE X -> W -> X * W).

(** The run of [GetGormDBForPath], by the answers to its calls. *)
Lemma GetGormDBForPath_run (dbPath : string) (key : list byte) (logger : Logger)
    (w : W) :
  exists conn pre w0 db oerr close,
    pre = (if bool_decide (dbPath = InMemoryDir)
           then [Ev UnixNano (h _ UnixNano w).1] else [])
    /\ conn = (if bool_decide (dbPath = InMemoryDir) then memdb_url (h _ UnixNano w).1
               else if bool_decide (key = []) then dbPath
               else encrypted_url dbPath (EncodeToString key))
    /\ run h (GetGormDBForPath dbPath key logger) w =
       (Returned (match oerr with
                  | Some err => Err (Wrap TODO err)
                  | None => Ok (db, close)
                  end),
        w0, pre ++ [Ev (GormOpen conn (mkGormConfig (Named logger "gorm") true))
                       (db, oerr)])
    /\ forall w2,
         let r := run h close w2 in
         r.1.1 = Returned tt
         /\ map call_of r.2
            = ACall (GormDB_DB db)
              :: match (h _ (GormDB_DB db) w2).1.1 with
                 | Some sqlDB => [ACall (DbClose sqlDB)]
                 | None => []
                 end.
Proof.
  unfold GetGormDBForPath. rewrite run_bind.
  set (closer := fun db : GormDB =>
         '(sqlDB, _) ← call (GormDB_DB db) ;
         match sqlDB with
         | Some sqlDB => _ ← call (DbClose sqlDB) ; Ret tt
         | None => Ret tt
         end).
  assert (forall db w2,
    let r := run h (closer db) w2 in
    r.1.1 = Returned tt
    /\ map call_of r.2
       = ACall (GormDB_DB db)
         :: match (h _ (GormDB_DB db) w2).1.1 with
            | Some sqlDB => [ACall (DbClose sqlDB)]
            | None => []
            end) as Hclose.
  { intros db w2. cbn zeta. unfold closer. rewrite run_call.
    destruct (h _ (GormDB_DB db) w2) as [[[sqlDB|] e] w3]; [|done].
    rewrite run_call. by destruct (h _ (DbClose sqlDB) w3) as [ce w4]. }
  destruct (bool_decide (dbPath = InMemoryDir)).
  - rewrite run_call. destruct (h _ UnixNano w) as [nanos w1].
    cbn [run fst]. cbn beta iota. rewrite run_call.
    destruct (h _ (GormOpen _ _) w1) as [[db oerr] w2].
    eexists _, _, _, db, oerr, (closer db).
    split; [reflexivity|]. split; [reflexivity|].
    split; [by destruct oerr|apply Hclose].
  - assert (run h (if bool_decide (length key <> 0)
                   then Ret (encrypted_url dbPath (EncodeToString key))
                   else Ret dbPath) w
            = (Returned (if bool_decide (key = []) then dbPath
                         else encrypted_url dbPath (EncodeToString key)), w, [])) as ->.
    { by destruct key. }
    cbn beta iota. rewrite run_call.
    destruct (h _ (GormOpen _ _) w) as [[db oerr] w2].
    eexists _, _, _, db, oerr, (closer db).
    split; [reflexivity|]. split; [reflexivity|].
    split; [by destruct oerr|apply Hclose].
Qed.

(** X21.  [GetMessengerDBForPath] opens the file "messenger.sqlite" of
    the directory: its only call is one [gorm.Open], on that path alone
    when the key is empty and on the path followed by the key parameters
    otherwise, with foreign key constraints disabled while migrating and
    the logger named "gorm".  Only for the sentinel does it read the clock
    first and open the in-memory URL. *)
Theorem messenger_db_calls (dir : string) (key : list byte) (logger : Logger) (w : W) :
  let dbPath := if bool_decide (dir <> InMemoryDir)
                then path_Join dir MessengerDatabaseFilename else dir in
  let cfg := mkGormConfig (Named logger "gorm") true in
  map call_of (run h (GetMessengerDBForPath dir key logger) w).2 =
  if bool_decide (dbPath = InMemoryDir)
  then [ACall UnixNano; ACall (GormOpen (memdb_url (h _ UnixNano w).1) cfg)]
  else [ACall (GormOpen (if bool_decide (key = []) then dbPath
                         else encrypted_url dbPath (EncodeToString key)) cfg)].
Proof.
  intros dbPath cfg. unfold GetMessengerDBForPath. cbn zeta. fold dbPath.
  destruct (GetGormDBForPath_run dbPath key logger w)
    as (conn & pre & w0 & db & oerr & close & -> & -> & -> & _).
  cbn [snd]. by destruct (bool_decide (dbPath = InMemoryDir)).
Qed.


(** X23.  The closing function returned with a handle, run from any
    state: it asks the handle for its [sql.DB] and closes that one, once,
    when there is one (whether or not the query also reported an error);
    it makes no other call and always returns. *)
Theorem gorm_close_function (dbPath : string) (key : list byte) (logger : Logger)
    (db : GormDB) (close : prog unit) (w w1 w2 : W) (t : list event) :
  run h (GetGormDBForPath dbPath key logger) w = (Returned (Ok (db, close)), w1, t) ->
  (run h close w2).1.1 = Returned tt
  /\ map call_of (run h close w2).2
     = ACall (GormDB_DB db)
       :: match (h _ (GormDB_DB db) w2).1.1 with
          | Some sqlDB => [ACall (DbClose sqlDB)]
          | None => []
          end.
Proof.
  intros E.
  destruct (GetGormDBForPath_run dbPath key logger w)
    as (conn & pre & w0 & db' & oerr & close' & _ & _ & E' & Hc).
  rewrite E in E'. destruct oerr; [done|].
  injection E' as -> -> _ _. apply Hc.
Qed.
End GormMore.

(** ** The key in the connection string *)

Lemma hex_digit_inj_nat (a b : nat) :
  a < 16 -> b < 16 ->
  hex_digit (N.of_nat a) = hex_digit (N.of_nat b) -> a = b.
Proof.
  intros Ha Hb.
  do 16 (destruct a as [|a];
         [do 16 (destruct b as [|b];
                 [intros E; vm_compute in E; first [reflexivity | discriminate E]|]);
          lia|]).
  lia.
Qed.

Lemma hex_digit_inj (n m : N) :
  (n < 16)%N -> (m < 16)%N -> hex_digit n = hex_digit m -> n = m.
Proof.
  intros Hn Hm E.
  rewrite <- (N2Nat.id n), <- (N2Nat.id m) in E.
  apply hex_digit_inj_nat in E; lia.
Qed.

Lemma byte_digits_inj (a b : byte) :
  (Byte.to_N a / 16 = Byte.to_N b / 16)%N ->
  (Byte.to_N a mod 16 = Byte.to_N b mod 16)%N ->
  a = b.
Proof.
  intros Hd Hm.
  assert (Byte.to_N a = Byte.to_N b) as E.
  { rewrite (N.div_mod (Byte.to_N a) 16), (N.div_mod (Byte.to_N b) 16) by lia.
    by rewrite Hd, Hm. }
  pose proof (Byte.of_to_N a) as Ea. rewrite E, Byte.of_to_N in Ea.
  by injection Ea.
Qed.

Lemma EncodeToString_inj (k1 k2 : list byte) :
  EncodeToString k1 = EncodeToString k2 -> k1 = k2.
Proof.
  revert k2. induction k1 as [|a k1 IH]; intros [|b k2] E; try done.
  simpl in E. injection E as E1 E2 E3.
  pose proof (Byte.to_N_bounded a). pose proof (Byte.to_N_bounded b).
  f_equal; [|by apply IH].
  apply byte_digits_inj; apply hex_digit_inj; try done.
  - apply N.Div0.div_lt_upper_bound. lia.
  - apply N.Div0.div_lt_upper_bound. lia.
  - apply N.mod_lt. lia.
  - apply N.mod_lt. lia.
Qed.

Lemma length_EncodeToString (k : list byte) :
  String.length (EncodeToString k) = 2 * length k.
Proof. induction k as [|b k IH]; simpl; [done|]. rewrite IH. lia. Qed.

(** X24.  The connection string of an encrypted store holds the key in
    hexadecimal, two digits a byte, and determines it: for one path, two
    different keys never give the same string. *)
Theorem encrypted_url_determines_key (path : string) (k1 k2 : list byte) :
  String.length (EncodeToString k1) = 2 * length k1
  /\ (encrypted_url path (EncodeToString k1) = encrypted_url path (EncodeToString k2)
      <-> k1 = k2).
Proof.
  split; [apply length_EncodeToString|]. split; [|by intros ->].
  unfold encrypted_url. intros E.
  apply string_app_inv_head, string_app_inv_head, string_app_inv_tail in E.
  by apply EncodeToString_inj.
Qed.

(** ** The further properties on the reference environment *)

Lemma Sim_get_stable : get_stable Sim.handler.
Proof.
  intros ks name v w w'. simpl.
  destruct (Sim.keystore w !! name) as [v'|] eqn:E; intros [= <- <-]; by rewrite E.
Qed.

Lemma push_key_created_witness :
  run Sim.handler (GetDevicePushKeyForPath "acc/push.key" true) Examples.fresh =
  (Returned (Ok (key_bytes Examples.pk1, key_bytes Examples.sk1)),
   Examples.first_call.1.2,
   [Ev (ReadFile "acc/push.key") ([], Some Sim.ENOENT);
    Ev (MkdirAll (path_Dir "acc/push.key") mode_0700) None;
    Ev GenerateKey (inl (Examples.pk1, Examples.sk1));
    Ev (Create "acc/push.key") None;
    Ev (WriteFile "acc/push.key"
          (key_bytes Examples.pk1 ++ key_bytes Examples.sk1) mode_0600) None])
  /\ length (key_bytes Examples.pk1 ++ key_bytes Examples.sk1) = KeySize * 2.
Proof.
  eapply (push_key_created (H := Sim.lib) Sim.handler "acc/push.key" [] Sim.ENOENT
            Examples.pk1 Examples.sk1 Examples.fresh Examples.fresh).
  - reflexivity.
  - reflexivity.
  - vm_compute. reflexivity.
  - vm_compute. reflexivity.
  - vm_compute. reflexivity.
  - vm_compute. reflexivity.
Defined.

Lemma push_key_read_splits_witness :
  exists pk sk,
    run Sim.handler (GetDevicePushKeyForPath "acc/push.key" false)
        MoreExamples.with_long_key =
    (Returned (Ok (pk, sk)), MoreExamples.with_long_key,
     [Ev (ReadFile "acc/push.key") (MoreExamples.long_key_file, None)])
    /\ pk ++ sk = take (KeySize * 2) MoreExamples.long_key_file
    /\ length pk = KeySize /\ length sk = KeySize.
Proof.
  apply (push_key_read_splits (H := Sim.lib) Sim.handler "acc/push.key" false
           MoreExamples.long_key_file MoreExamples.with_long_key
           MoreExamples.with_long_key).
  - vm_compute. reflexivity.
  - vm_compute. lia.
Defined.

Lemma push_key_ok_is_persisted_witness :
  length (key_bytes Examples.pk1) = KeySize /\ length (key_bytes Examples.sk1) = KeySize
  /\ ((exists contents,
         Examples.first_call.2 = [Ev (ReadFile "acc/push.key") (contents, None)]
         /\ take (KeySize * 2) contents = key_bytes Examples.pk1 ++ key_bytes Examples.sk1)
      \/ (true = true
          /\ exists t0,
               Examples.first_call.2
               = t0 ++ [Ev (WriteFile "acc/push.key"
                              (key_bytes Examples.pk1 ++ key_bytes Examples.sk1)
                              mode_0600) None])).
Proof.
  apply (push_key_ok_is_persisted (H := Sim.lib) Sim.handler "acc/push.key" true
           (key_bytes Examples.pk1) (key_bytes Examples.sk1)
           Examples.fresh Examples.first_call.1.2 Examples.first_call.2).
  vm_compute. reflexivity.
Defined.

Lemma push_key_errors_witness :
  (Wrap ErrCryptoKeyGeneration Sim.EIO
   = Wrap ErrPushUnableToDecrypt (New "unable to get device push key")
   /\ written (run Sim.handler (GetDevicePushKeyForPath "acc/push.key" true) Sim.empty).2
      = [])
  \/ (code_of (Wrap ErrCryptoKeyGeneration Sim.EIO) = Some ErrCryptoKeyGeneration
      /\ true = true
      /\ written (run Sim.handler (GetDevicePushKeyForPath "acc/push.key" true) Sim.empty).2
         = [path_Dir "acc/push.key"])
  \/ (true = true
      /\ exists t0 (c : osE (option error)) inner,
           Wrap ErrCryptoKeyGeneration Sim.EIO = Wrap ErrInternal inner
           /\ (run Sim.handler (GetDevicePushKeyForPath "acc/push.key" true) Sim.empty).2
              = t0 ++ [Ev c (Some inner)]
           /\ written [Ev c (Some inner)] <> []).
Proof.
  apply (push_key_errors (H := Sim.lib) Sim.handler "acc/push.key" true
           (Wrap ErrCryptoKeyGeneration Sim.EIO) Sim.empty
           (run Sim.handler (GetDevicePushKeyForPath "acc/push.key" true) Sim.empty).1.2).
  vm_compute. reflexivity.
Defined.

Lemma account_meta_keeps_other_fields_witness :
  exists metaBytes stored,
    (Sim.handler _ (ReadFile (filepath_Join ["accounts"; "real-id"; AccountMetafileName]))
       AccountExamples.root).1
    = (metaBytes, None)
    /\ proto_Unmarshal metaBytes = Ok stored
    /\ Error (mkAccountMetadata "real-id" "" (list_byte_of_string "alice")) = Error stored
    /\ am_rest (mkAccountMetadata "real-id" "" (list_byte_of_string "alice"))
       = am_rest stored.
Proof.
  apply (account_meta_keeps_other_fields (H := Sim.lib) Sim.handler
           "accounts" "real-id" None AccountExamples.root AccountExamples.root _
           (run Sim.handler (GetAccountMetaForName "accounts" "real-id" None)
                AccountExamples.root).2).
  vm_compute. reflexivity.
Defined.

Lemma list_accounts_missing_root_witness :
  run Sim.handler (ListAccounts "accounts" None) Sim.empty =
  (Returned (Ok []), Sim.empty, [Ev (Stat "accounts") (Some Sim.ENOENT)]).
Proof.
  apply (list_accounts_missing_root (H := Sim.lib) Sim.handler "accounts" None
           Sim.ENOENT Sim.empty Sim.empty); reflexivity.
Defined.

Lemma list_accounts_reads_metafiles_witness :
  read_files (run Sim.handler (ListAccounts "accounts" None) AccountExamples.root).2
  = map (fun i => filepath_Join ["accounts"; fi_Name i; AccountMetafileName])
        (filter (fun i => fi_IsDir i = true) AccountExamples.entries).
Proof.
  apply (list_accounts_reads_metafiles (H := Sim.lib) Sim.handler "accounts" None
           AccountExamples.root AccountExamples.root AccountExamples.root
           AccountExamples.entries).
  - vm_compute. reflexivity.
  - vm_compute. reflexivity.
Defined.

Lemma storage_key_random_failure_witness :
  run Sim.handler (GetOrCreateStorageKey KeystoreExamples.ks) Sim.empty =
  (Returned (Err (Wrap ErrCryptoKeyGeneration Sim.EIO)), Sim.empty,
   [Ev (KsGet KeystoreExamples.ks StorageKeyName) ([], Some KeystoreExamples.missing);
    Ev (CrandRead KeySize) (replicate KeySize x00, Some Sim.EIO)])
  /\ puts (run Sim.handler (GetOrCreateStorageKey KeystoreExamples.ks) Sim.empty).2 = [].
Proof.
  apply (storage_key_random_failure Sim.handler KeystoreExamples.ks [] _
           KeystoreExamples.missing Sim.EIO Sim.empty Sim.empty Sim.empty);
    reflexivity.
Defined.

Lemma storage_key_idempotent_witness :
  run Sim.handler (GetOrCreateStorageKey KeystoreExamples.ks) MoreExamples.first_key.1.2 =
  (Returned (Ok (x01 :: KeystoreExamples.drawn)), MoreExamples.first_key.1.2,
   [Ev (KsGet KeystoreExamples.ks StorageKeyName) (x01 :: KeystoreExamples.drawn, None)]).
Proof.
  apply (storage_key_idempotent Sim.handler KeystoreExamples.ks _
           KeystoreExamples.wrapping MoreExamples.first_key.1.2
           MoreExamples.first_key.2 Sim_get_stable).
  vm_compute. reflexivity.
Defined.

Lemma root_datastore_errors_witness :
  (exists inner,
     Wrap ErrInvalidInput (New "missing storage key, db is encrypted") = Wrap TODO inner
     /\ DatastoreExamples.no_key_on_encrypted.2
        = [Ev (MkdirAll "store" ModePerm) (Some inner)])
  \/ (code_of (Wrap ErrInvalidInput (New "missing storage key, db is encrypted"))
      = Some ErrInvalidInput
      /\ opened DatastoreExamples.no_key_on_encrypted.2 = [])
  \/ (exists inner t0 url db,
        Wrap ErrInvalidInput (New "missing storage key, db is encrypted")
        = Wrap ErrDBOpen inner
        /\ DatastoreExamples.no_key_on_encrypted.2
           = t0 ++ [Ev (SqlOpen "sqlite3" url) (db, Some inner)])
  \/ (exists inner t0 url db,
        Wrap ErrInvalidInput (New "missing storage key, db is encrypted")
        = Wrap ErrDBWrite inner
        /\ DatastoreExamples.no_key_on_encrypted.2
           = t0 ++ [Ev (SqlOpen "sqlite3" url) (db, None);
                    Ev (DbExec db (create_table_stmt "blocks")) (Some inner)]
        /\ closed DatastoreExamples.no_key_on_encrypted.2 = []).
Proof.
  apply (root_datastore_errors (H := Sim.lib) Sim.handler "store" []
           DatastoreExamples.logger _ DatastoreExamples.encrypted
           DatastoreExamples.no_key_on_encrypted.1.2).
  vm_compute. reflexivity.
Defined.

Lemma gorm_close_function_witness :
  (run Sim.handler MoreExamples.messenger_close MoreExamples.messenger.1.2).1.1
  = Returned tt
  /\ map call_of (run Sim.handler MoreExamples.messenger_close
                      MoreExamples.messenger.1.2).2
     = ACall (GormDB_DB (GormDBRef 0))
       :: match (Sim.handler _ (GormDB_DB (GormDBRef 0)) MoreExamples.messenger.1.2).1.1 with
          | Some sqlDB => [ACall (DbClose sqlDB)]
          | None => []
          end.
Proof.
  apply (gorm_close_function Sim.handler "store/messenger.sqlite" []
           DatastoreExamples.logger (GormDBRef 0) MoreExamples.messenger_close
           DatastoreExamples.absent MoreExamples.messenger.1.2
           MoreExamples.messenger.1.2 MoreExamples.messenger.2).
  vm_compute. reflexivity.
Defined.

Lemma list_accounts_fails_only_on_root_witness :
  exists inner,
    Wrap ErrBertyAccountFSError Sim.ENOTDIR = Wrap ErrBertyAccountFSError inner
    /\ ((run Sim.handler (ListAccounts "accounts" None) MoreExamples.root_is_file).2
        = [Ev (Stat "accounts") (Some inner)]
        \/ exists subitems,
             (run Sim.handler (ListAccounts "accounts" None) MoreExamples.root_is_file).2
             = [Ev (Stat "accounts") None;
                Ev (ReadDir "accounts") (subitems, Some inner)]).
Proof.
  apply (list_accounts_fails_only_on_root (H := Sim.lib) Sim.handler "accounts" None
           (Wrap ErrBertyAccountFSError Sim.ENOTDIR) MoreExamples.root_is_file
           (run Sim.handler (ListAccounts "accounts" None) MoreExamples.root_is_file).1.2).
  vm_compute. reflexivity.
Defined.
